(** * Exchange arrows on the map: placement, culling and asset selection

    A shallow embedding of [web/src/features/exchanges/ExchangeArrow.tsx].

    The component receives one exchange record, the map and the viewport
    size, and returns either [null] (nothing is drawn) or a pair of
    [<picture>] elements that share one CSS transform, one image source and
    one element id.

    Conventions of the embedding:
    - a JavaScript [number] is an exact rational ([Q]); numeric identity is
      [Qeq] (written [==]).  Rounding, NaN and the infinities are outside the
      model, except for the one NaN the component can produce by itself,
      [Math.abs(undefined)], which is [None] in [Math_abs];
    - a field that may be [null] or [undefined] is an [option];
    - the state React keeps for the component between two renders (the cell
      of [useMemo]) is passed in and out explicitly;
    - the functions imported from other modules ([quantizedCo2IntensityScale],
      [quantizedExchangeSpeedScale], [resolvePath]) are the fields of a
      record, [Imports], that the component takes as an argument;
      [getHeaderHeight ()] is read once per render and is an argument too,
      [headerHeight];
    - [useEffect] (the wheel listener on [#exchange-layer]) and the [onWheel]
      handler do not contribute to the returned element and are left out of
      [ExchangeArrow]; the effect is modelled on its own, in [Wheel].

    A second embedding of the same component, [IEEE], computes on IEEE 754
    binary64 values as JavaScript does, keeps [null] and [undefined] apart,
    and keeps the hook cells of the mounted component, so that a render can
    throw.  The properties that depend on rounding (rotation, culling) or on
    the order of the hooks (whether a call returns at all) are stated on it,
    in the last part of the file. *)

From Stdlib Require Import QArith Qabs Lqa Lia String Bool List PeanoNat.
From Stdlib Require Floats.
Import ListNotations.

Local Open Scope string_scope.
Local Open Scope Q_scope.

(** ** JavaScript operators used by the component *)

Module JS.

(** [a < b] on numbers. *)
Definition ltb (a b : Q) : bool := if Qlt_le_dec a b then true else false.

(** [a > b] on numbers. *)
Definition gtb (a b : Q) : bool := ltb b a.

(** [v ?? d]. *)
Definition nullish {A : Type} (v : option A) (d : A) : A :=
  match v with
  | Some a => a
  | None => d
  end.

(** [Math.abs(v)]; an absent argument gives NaN, which is [None]. *)
Definition Math_abs (v : option Q) : option Q := option_map Qabs v.

(** [v > 0] where [v] may be [undefined]: the comparison is then false. *)
Definition positive (v : option Q) : bool :=
  match v with
  | Some q => gtb q 0
  | None => false
  end.

(** [Object.is] on numbers and on numbers that may be absent. *)
Definition is_num (a b : Q) : bool := Qeq_bool a b.

Definition is_opt (a b : option Q) : bool :=
  match a, b with
  | Some p, Some q => is_num p q
  | None, None => true
  | _, _ => false
  end.

(** Two possibly absent numbers denote the same value. *)
Definition same_opt (a b : option Q) : Prop :=
  match a, b with
  | Some p, Some q => p == q
  | None, None => True
  | _, _ => False
  end.

End JS.

(** ** Data *)

(** [[number, number]]: longitude, latitude. *)
Definition LngLat : Type := (Q * Q)%type.

(** The point [map.project] returns. *)
Record Point : Type := mkPoint { px : Q; py : Q }.

(** The two methods of [maplibregl.Map] the component calls. *)
Record Map : Type := mkMap {
  getZoom : Q;
  project : LngLat -> Point
}.

(** [ExchangeArrowData], with the fields the component destructures.
    [lonlat] is tested with [!lonlat] and [netFlow] is read through
    [?? 0], so both may be absent. *)
Record ExchangeArrowData : Type := mkData {
  co2intensity : Q;
  lonlat : option LngLat;
  netFlow : option Q;
  rotation : Q;
  key : string
}.

Record ExchangeArrowProps : Type := mkProps {
  data : ExchangeArrowData;
  viewportWidth : Q;
  viewportHeight : Q;
  map : Map;
  colorBlindMode : bool
}.

(** The object literal [transform]. *)
Record Transform : Type := mkTransform {
  x : Q;
  y : Q;
  k : Q;
  r : Q
}.

(** What the returned fragment is made of: both [<picture>] elements carry
    [id], [transform] and [imageSource]; the desktop tooltip wrapper carries
    [tooltipClassName].  The remaining attributes are literals. *)
Record Rendered : Type := mkRendered {
  id : string;
  style_transform : Transform;
  imageSource : string;
  tooltipClassName : string
}.

(** The value of the component: [null], or the fragment. *)
Inductive Element : Type :=
| null : Element
| fragment : Rendered -> Element.

(** ** The cell of [useMemo] *)

(** The dependency array [[colorBlindModeEnabled, co2intensity, netFlow]]. *)
Definition Deps : Type := (bool * Q * option Q)%type.

(** Nothing before the first render that reaches the hook, afterwards the
    dependencies and the value of the last computation. *)
Definition MemoCell : Type := option (Deps * string).

Definition same_deps (a b : Deps) : bool :=
  let '(cb1, ci1, nf1) := a in
  let '(cb2, ci2, nf2) := b in
  Bool.eqb cb1 cb2 && JS.is_num ci1 ci2 && JS.is_opt nf1 nf2.

(** [useMemo(factory, deps)]: the stored value while the dependencies are
    unchanged, a new computation otherwise. *)
Definition useMemo (cell : MemoCell) (factory : unit -> string) (deps : Deps)
  : string * MemoCell :=
  match cell with
  | Some (prev, value) =>
      if same_deps prev deps then (value, cell)
      else let v := factory tt in (v, Some (deps, v))
  | None => let v := factory tt in (v, Some (deps, v))
  end.

(** ** The imported functions *)

(** What the component imports from [./scales] and [react-router-dom]:
    [quantizedCo2IntensityScale] and [quantizedExchangeSpeedScale] give the
    tier of a carbon intensity and of a flow magnitude, as they print in a
    template ([None] is the magnitude NaN); [resolvePath_pathname to] is
    [resolvePath(to).pathname]. *)
Record Imports : Type := mkImports {
  quantizedCo2IntensityScale : Q -> string;
  quantizedExchangeSpeedScale : option Q -> string;
  resolvePath_pathname : string -> string
}.

(** ** Notions used to state the properties *)

(** The asset key as the specification composes it:
    [{colorblindPrefix}{arrowBase}-{intensityTier}-{speedTier}]. *)
Definition specAssetKey (arrowBase : string) (colorblindMode : bool)
    (intensityTier speedTier : string) : string :=
  (if colorblindMode then "colorblind-" else "")
    ++ arrowBase ++ "-" ++ intensityTier ++ "-" ++ speedTier.

(** ** Collaborators and records for running the component *)

(** A three-tier intensity table. *)
Definition sampleCo2Scale (co2 : Q) : string :=
  if JS.ltb co2 80 then "0"
  else if JS.ltb co2 160 then "80"
  else "160".

(** A three-tier speed table; NaN falls in the lowest tier. *)
Definition sampleSpeedScale (flow : option Q) : string :=
  match flow with
  | None => "0"
  | Some f =>
      if JS.ltb f 100 then "0"
      else if JS.ltb f 1000 then "1"
      else "2"
  end.

(** The pathname of a relative path resolved against the root. *)
Definition rootPathname (to : string) : string := "/" ++ to.

Definition sampleImports : Imports :=
  {| quantizedCo2IntensityScale := sampleCo2Scale;
     quantizedExchangeSpeedScale := sampleSpeedScale;
     resolvePath_pathname := rootPathname |}.

(** A map at zoom [zoom] whose projection sends every position to
    [(sx, sy)]. *)
Definition constantMap (zoom sx sy : Q) : Map :=
  {| getZoom := zoom; project := fun _ => {| px := sx; py := sy |} |}.

(** The record of the reference scenario: position (10, 50), net flow
    [flow], carbon intensity 120, rotation 0. *)
Definition scenarioData (flow : option Q) (identity : string)
  : ExchangeArrowData :=
  {| co2intensity := 120;
     lonlat := Some (10, 50);
     netFlow := flow;
     rotation := 0;
     key := identity |}.

(** Props for a record drawn on a map at zoom [zoom] that projects it to
    [(sx, sy)], in a viewport of [width] by [height]. *)
Definition sceneProps (d : ExchangeArrowData) (zoom sx sy width height : Q)
    (colorblind : bool) : ExchangeArrowProps :=
  {| data := d;
     viewportWidth := width;
     viewportHeight := height;
     map := constantMap zoom sx sy;
     colorBlindMode := colorblind |}.

(** The reference scenario: zoom 5, a viewport of 1000 by 800, the record
    projected to (500, 400). *)
Definition scenarioProps (flow : option Q) (identity : string)
    (colorblind : bool) : ExchangeArrowProps :=
  sceneProps (scenarioData flow identity) 5 500 400 1000 800 colorblind.

(** ** The component *)

Section Component.

Variable env : Imports.

(** The body of the [useMemo] factory. *)
Definition arrowImage (colorBlindModeEnabled : bool) (co2 : Q)
    (flow : option Q) : string :=
  let prefix := if colorBlindModeEnabled then "colorblind-" else "" in
  let intensity := quantizedCo2IntensityScale env co2 in
  let speed := quantizedExchangeSpeedScale env (JS.Math_abs flow) in
  resolvePath_pathname env
    ("images/arrows/" ++ prefix ++ "arrow-" ++ intensity
       ++ "-animated-" ++ speed).

Definition imageOfDeps (d : Deps) : string :=
  let '(cb, co2, flow) := d in arrowImage cb co2 flow.

(** [Math.abs(data.netFlow ?? 0)]. *)
Definition absFlow (d : ExchangeArrowData) : Q :=
  Qabs (JS.nullish (netFlow d) 0).

(** The [transform] literal, for a record whose position is [pos]. *)
Definition transform (props : ExchangeArrowProps) (pos : LngLat)
  : Transform :=
  let mapZoom := getZoom (map props) in
  let projection := project (map props) pos in
  {| x := px projection;
     y := py projection;
     k := 0.04 + (mapZoom - 1.5) * 0.1;
     r := rotation (data props)
          + (if JS.positive (netFlow (data props)) then 180 else 0) |}.

Definition tooltipClass (t : Transform) (headerHeight : Q) : string :=
  "max-h-[256px] max-w-[512px] hidden md:flex"
    ++ (if JS.ltb (y t - 76) headerHeight
        then " top-[76px]" else " top-[-76px]").

(** The four tests on the viewport, in the order of the source. *)
Definition leftOfViewport (t : Transform) : bool :=
  JS.ltb (x t + 100 * k t) 0.

Definition aboveViewport (t : Transform) : bool :=
  JS.ltb (y t + 100 * k t) 0.

Definition rightOfViewport (t : Transform) (viewportWidth : Q) : bool :=
  JS.gtb (x t - 100 * k t) viewportWidth.

Definition belowViewport (t : Transform) (viewportHeight : Q) : bool :=
  JS.gtb (y t - 100 * k t) viewportHeight.

(** One render: the element, and the cell left for the next render. *)
Definition ExchangeArrow (props : ExchangeArrowProps) (headerHeight : Q)
    (cell : MemoCell) : Element * MemoCell :=
  let colorBlindModeEnabled := colorBlindMode props in
  let d := data props in
  match lonlat d with
  | None => (null, cell)
  | Some pos =>
      let '(image, cell') :=
        useMemo cell
          (fun _ => arrowImage colorBlindModeEnabled (co2intensity d)
                      (netFlow d))
          (colorBlindModeEnabled, co2intensity d, netFlow d) in
      let t := transform props pos in
      let tooltip := tooltipClass t headerHeight in
      if JS.ltb (absFlow d) 1 then (null, cell')
      else if JS.ltb (k t) 0.1 then (null, cell')
      else if leftOfViewport t then (null, cell')
      else if aboveViewport t then (null, cell')
      else if rightOfViewport t (viewportWidth props) then (null, cell')
      else if belowViewport t (viewportHeight props) then (null, cell')
      else (fragment {| id := key d;
                        style_transform := t;
                        imageSource := image;
                        tooltipClassName := tooltip |},
            cell')
  end.

(** What one render returns. *)
Definition rendered (props : ExchangeArrowProps) (headerHeight : Q)
    (cell : MemoCell) : Element :=
  fst (ExchangeArrow props headerHeight cell).

(** The cell after a sequence of renders of one mounted component, each
    with its own props and header height.  React expects a mounted
    component to reach the same hooks on every render, so in the life of one
    arrow the position is present throughout or absent throughout; the
    sequences here include those. *)
Fixpoint cellAfter (history : list (ExchangeArrowProps * Q))
    (cell : MemoCell) : MemoCell :=
  match history with
  | [] => cell
  | (props, headerHeight) :: rest =>
      cellAfter rest (snd (ExchangeArrow props headerHeight cell))
  end.

(** A cell is consistent when the value it stores is the image of the
    dependencies it stores. *)
Definition cellOk (cell : MemoCell) : Prop :=
  match cell with
  | None => True
  | Some (deps, value) => value = imageOfDeps deps
  end.

(** The scales cannot tell two representations of one number apart. *)
Definition co2ScaleExtensional : Prop :=
  forall a b : Q, a == b ->
    quantizedCo2IntensityScale env a = quantizedCo2IntensityScale env b.

Definition speedScaleExtensional : Prop :=
  forall a b : option Q, JS.same_opt a b ->
    quantizedExchangeSpeedScale env a = quantizedExchangeSpeedScale env b.

End Component.

(** ** Variations of the props *)

(** The same props on a map at another zoom that still projects to the same
    points. *)
Definition setZoom (zoom : Q) (props : ExchangeArrowProps)
  : ExchangeArrowProps :=
  {| data := data props;
     viewportWidth := viewportWidth props;
     viewportHeight := viewportHeight props;
     map := {| getZoom := zoom; project := project (map props) |};
     colorBlindMode := colorBlindMode props |}.

(** The same props in a viewport of another size. *)
Definition setViewport (width height : Q) (props : ExchangeArrowProps)
  : ExchangeArrowProps :=
  {| data := data props;
     viewportWidth := width;
     viewportHeight := height;
     map := map props;
     colorBlindMode := colorBlindMode props |}.

(** The same props with another colorblind flag. *)
Definition setColorBlindMode (colorblind : bool) (props : ExchangeArrowProps)
  : ExchangeArrowProps :=
  {| data := data props;
     viewportWidth := viewportWidth props;
     viewportHeight := viewportHeight props;
     map := map props;
     colorBlindMode := colorblind |}.

(** Two elements are both [null], or both drawn with the same id, transform
    and tooltip class. *)
Definition sameButImage (a b : Element) : Prop :=
  match a, b with
  | null, null => True
  | fragment o1, fragment o2 =>
      id o1 = id o2 /\
      style_transform o1 = style_transform o2 /\
      tooltipClassName o1 = tooltipClassName o2
  | _, _ => False
  end.

(** ** The wheel listener of [ExchangeArrow] *)

Module Wheel.

(** What the effect of the component sees of the document: the wheel
    listeners of [#exchange-layer], or [None] when no such element exists.
    A listener is the closure [cancelWheel] of one run of the effect; each
    run creates its own, told apart here by a number. *)
Definition Document : Type := option (list nat).

(** [addEventListener('wheel', h, ...)]: a listener already registered is
    not registered twice. *)
Definition addEventListener (h : nat) (listeners : list nat) : list nat :=
  if existsb (Nat.eqb h) listeners then listeners else listeners ++ [h].

(** [removeEventListener('wheel', h)]. *)
Definition removeEventListener (h : nat) (listeners : list nat) : list nat :=
  filter (fun h' => negb (Nat.eqb h h')) listeners.

(** The function given to [useEffect]: the document after it, and the
    cleanup it returns, if any. *)
Definition effect (cancelWheel : nat) (doc : Document)
  : Document * option (Document -> Document) :=
  match doc with
  | None => (doc, None)
  | Some listeners =>
      (Some (addEventListener cancelWheel listeners),
       Some (option_map (removeEventListener cancelWheel)))
  end.

(** The arrow is mounted, then unmounted. *)
Definition mountThenUnmount (cancelWheel : nat) (doc : Document) : Document :=
  match effect cancelWheel doc with
  | (doc', Some cleanup) => cleanup doc'
  | (doc', None) => doc'
  end.

(** A wheel event on the layer ends up with its default action prevented
    when some [cancelWheel] is registered on it. *)
Definition wheelPrevented (doc : Document) : bool :=
  match doc with
  | Some (_ :: _) => true
  | _ => false
  end.

End Wheel.

(** ** [components/Badge.tsx] *)

Module Badge.

Inductive PillType : Type :=
| default : PillType
| warning : PillType
| success : PillType.

(** [type] and [icon] are optional. *)
Record BadgeProps : Type := mkBadgeProps {
  pillText : string;
  type : option PillType;
  icon : option string
}.

(** What is inside the [<span>]. *)
Inductive Child : Type :=
| div (className : string)
| text (content : string).

Record Span : Type := mkSpan {
  className : string;
  data_test_id : string;
  children : list Child
}.

(** The [switch] on [type]. *)
Definition classes (type : option PillType) : string :=
  match type with
  | Some warning =>
      "bg-warning/10 dark:bg-warning-dark/10 text-warning dark:text-warning-dark"
  | Some success =>
      "bg-success/10 dark:bg-success-dark/10 text-success dark:text-success-dark"
  | _ => "bg-neutral-200 dark:bg-gray-700 text-black dark:text-white"
  end.

Definition Badge (props : BadgeProps) : Span :=
  {| className :=
       "ml-2 flex h-[22px] flex-row items-center gap-1 whitespace-nowrap rounded-full px-2 py-1 text-xs font-semibold "
         ++ classes (type props);
     data_test_id := "badge";
     children :=
       match icon props with
       | Some i => [div i; text (pillText props)]
       | None => [text (pillText props)]
       end |}.

End Badge.

(** ** [features/map-controls/ColorblindToggle.tsx] *)

Module ColorblindToggle.

(** The state outside the component: the value of [colorblindModeAtom] and
    the events passed to [trackEvent], oldest first. *)
Record Store : Type := mkStore {
  colorblindModeAtom : bool;
  tracked : list string
}.

(** What the rendered [MapButton] is made of. *)
Record MapButton : Type := mkMapButton {
  iconClassName : string;
  dataTestId : string;
  onClick : Store -> Store
}.

(** The handler of one render; [isColorblindModeEnabled] is the value of
    the atom that render has read. *)
Definition handleColorblindModeToggle (isColorblindModeEnabled : bool)
    (s : Store) : Store :=
  {| colorblindModeAtom := negb isColorblindModeEnabled;
     tracked := tracked s ++ ["Colorblind Mode Toggled"] |}.

Definition ColorblindToggle (s : Store) : MapButton :=
  let isColorblindModeEnabled := colorblindModeAtom s in
  {| iconClassName := if isColorblindModeEnabled then "" else "opacity-50";
     dataTestId := "colorblind-layer-button";
     onClick := handleColorblindModeToggle isColorblindModeEnabled |}.

(** The button is rendered from the store, then clicked. *)
Definition click (s : Store) : Store := onClick (ColorblindToggle s) s.

(** [n] clicks, the button rendered again before each. *)
Fixpoint clicks (n : nat) (s : Store) : Store :=
  match n with
  | O => s
  | S m => clicks m (click s)
  end.

End ColorblindToggle.

(** ** [cypress.config.ts] *)

Module Cypress.

(** The two fields of the browser the handler reads. *)
Record Browser : Type := mkBrowser {
  family : string;
  name : string
}.

(** A preference: a string, or an object of string preferences. *)
Inductive Pref : Type :=
| pstr (s : string)
| pobj (fields : list (string * string)).

(** An object, as its own properties in insertion order. *)
Definition Obj : Type := list (string * Pref).

(** [o[key]]. *)
Fixpoint get (key : string) (o : Obj) : option Pref :=
  match o with
  | [] => None
  | (k, v) :: rest => if String.eqb k key then Some v else get key rest
  end.

(** [o[key] = v]: an existing property is overwritten in place, a new one
    comes last. *)
Fixpoint assign (key : string) (v : Pref) (o : Obj) : Obj :=
  match o with
  | [] => [(key, v)]
  | (k, w) :: rest =>
      if String.eqb k key then (k, v) :: rest
      else (k, w) :: assign key v rest
  end.

(** [launchOptions]; of [preferences] the handler only touches [default]. *)
Record LaunchOptions : Type := mkLaunchOptions {
  extensions : list string;
  args : list string;
  preferences_default : Obj
}.

Definition intl : Pref :=
  pobj [("accept_languages", "en-US,en");
        ("selected_languages", "en-US,en")].

(** The handler of [before:browser:launch]: the launch options it returns,
    or [None] when it returns nothing and leaves them alone. *)
Definition beforeBrowserLaunch (browser : Browser)
    (launchOptions : LaunchOptions) : option LaunchOptions :=
  if String.eqb (family browser) "chromium"
     && negb (String.eqb (name browser) "electron")
  then Some {| extensions := extensions launchOptions;
               args := args launchOptions;
               preferences_default :=
                 assign "intl" intl (preferences_default launchOptions) |}
  else None.

(** The launch options the browser starts with. *)
Definition launchedWith (browser : Browser) (launchOptions : LaunchOptions)
  : LaunchOptions :=
  match beforeBrowserLaunch browser launchOptions with
  | Some modified => modified
  | None => launchOptions
  end.

End Cypress.

(** ** The component on doubles, with React's count of hooks *)

(** The same component with its numbers as IEEE 754 binary64 values,
    computed as JavaScript computes them, with [null] and [undefined] kept
    apart, and with the hook cells React keeps for a mounted component: a
    render that calls a hook the previous render has not reached throws. *)

Module IEEE.

Import Floats.
#[local] Set Warnings "-inexact-float".
Local Open Scope float_scope.

(** A field that holds a number, [null] or [undefined]. *)
Inductive Nullable : Type :=
| js_undefined : Nullable
| js_null : Nullable
| js_number : float -> Nullable.

(** The number an arithmetic operator or [Math.abs] reads in a field. *)
Definition ToNumber (v : Nullable) : float :=
  match v with
  | js_undefined => nan
  | js_null => 0
  | js_number f => f
  end.

(** [v ?? d]. *)
Definition nullish (v : Nullable) (d : float) : float :=
  match v with
  | js_number f => f
  | _ => d
  end.

(** [Math.abs(v)]. *)
Definition Math_abs (v : Nullable) : float := abs (ToNumber v).

(** [v > 0]. *)
Definition positive (v : Nullable) : bool := 0 <? ToNumber v.

(** [Object.is]: NaN is itself, [+0] and [-0] differ, as for the equality
    of the primitive floats. *)
Definition Object_is (a b : Nullable) : bool :=
  match a, b with
  | js_undefined, js_undefined => true
  | js_null, js_null => true
  | js_number p, js_number q => Leibniz.eqb p q
  | _, _ => false
  end.

Definition LngLat : Type := (float * float)%type.

Record Point : Type := mkPoint { px : float; py : float }.

Record Map : Type := mkMap {
  getZoom : float;
  project : LngLat -> Point
}.

Record ExchangeArrowData : Type := mkData {
  co2intensity : float;
  lonlat : option LngLat;
  netFlow : Nullable;
  rotation : float;
  key : string
}.

Record ExchangeArrowProps : Type := mkProps {
  data : ExchangeArrowData;
  viewportWidth : float;
  viewportHeight : float;
  map : Map;
  colorBlindMode : bool
}.

Record Transform : Type := mkTransform {
  x : float;
  y : float;
  k : float;
  r : float
}.

Record Rendered : Type := mkRendered {
  id : string;
  style_transform : Transform;
  imageSource : string;
  tooltipClassName : string
}.

Inductive Element : Type :=
| null : Element
| fragment : Rendered -> Element.

(** How a call of the component ends. *)
Inductive Outcome : Type :=
| returned : Element -> Outcome
| thrown : string -> Outcome.

Definition Deps : Type := (bool * float * Nullable)%type.

Definition same_deps (a b : Deps) : bool :=
  let '(cb1, ci1, nf1) := a in
  let '(cb2, ci2, nf2) := b in
  Bool.eqb cb1 cb2 && Leibniz.eqb ci1 ci2 && Object_is nf1 nf2.

(** The hooks the last render of a mounted arrow has reached: it stopped at
    the early return of line 37, after [useSetAtom] only, or it reached
    [useEffect] and [useMemo], whose cell it has left. *)
Inductive Fiber : Type :=
| stopped : Fiber
| completed : Deps -> string -> Fiber.

Record Imports : Type := mkImports {
  quantizedCo2IntensityScale : float -> string;
  quantizedExchangeSpeedScale : float -> string;
  resolvePath_pathname : string -> string
}.

(** [useMemo] of a render allowed to reach it. *)
Definition useMemo (current : option Fiber) (factory : unit -> string)
    (deps : Deps) : string * Fiber :=
  match current with
  | Some (completed prev value) =>
      if same_deps prev deps then (value, completed prev value)
      else let v := factory tt in (v, completed deps v)
  | _ => let v := factory tt in (v, completed deps v)
  end.

Definition arrowImage (env : Imports) (colorBlindModeEnabled : bool)
    (co2 : float) (flow : Nullable) : string :=
  let prefix := if colorBlindModeEnabled then "colorblind-" else "" in
  let intensity := quantizedCo2IntensityScale env co2 in
  let speed := quantizedExchangeSpeedScale env (Math_abs flow) in
  resolvePath_pathname env
    ("images/arrows/" ++ prefix ++ "arrow-" ++ intensity
       ++ "-animated-" ++ speed)%string.

(** [Math.abs(data.netFlow ?? 0)]. *)
Definition absFlow (d : ExchangeArrowData) : float :=
  abs (nullish (netFlow d) 0).

Definition transform (props : ExchangeArrowProps) (pos : LngLat)
  : Transform :=
  let mapZoom := getZoom (map props) in
  let projection := project (map props) pos in
  {| x := px projection;
     y := py projection;
     k := 0.04 + (mapZoom - 1.5) * 0.1;
     r := rotation (data props)
          + (if positive (netFlow (data props)) then 180 else 0) |}.

Definition tooltipClass (t : Transform) (headerHeight : float) : string :=
  ("max-h-[256px] max-w-[512px] hidden md:flex"
     ++ (if (y t - 76 <? headerHeight)%float
         then " top-[76px]" else " top-[-76px]"))%string.

Definition leftOfViewport (t : Transform) : bool :=
  x t + 100 * k t <? 0.

Definition aboveViewport (t : Transform) : bool :=
  y t + 100 * k t <? 0.

Definition rightOfViewport (t : Transform) (viewportWidth : float) : bool :=
  viewportWidth <? x t - 100 * k t.

Definition belowViewport (t : Transform) (viewportHeight : float) : bool :=
  viewportHeight <? y t - 100 * k t.

(** One call of the component for an arrow whose last render has left
    [current] ([None] when the arrow is being mounted): how the call ends,
    and the hooks React keeps.  A render that stops at line 37 after one
    that went further returns [null] all the same; React rejects it after
    the call and keeps the cells it had. *)
Definition ExchangeArrow (env : Imports) (props : ExchangeArrowProps)
    (headerHeight : float) (current : option Fiber)
  : Outcome * option Fiber :=
  let colorBlindModeEnabled := colorBlindMode props in
  let d := data props in
  match lonlat d with
  | None =>
      (returned null,
       match current with
       | None => Some stopped
       | Some _ => current
       end)
  | Some pos =>
      match current with
      | Some stopped =>
          (thrown "Rendered more hooks than during the previous render.",
           current)
      | _ =>
          let '(image, cells) :=
            useMemo current
              (fun _ => arrowImage env colorBlindModeEnabled
                          (co2intensity d) (netFlow d))
              (colorBlindModeEnabled, co2intensity d, netFlow d) in
          let t := transform props pos in
          let tooltip := tooltipClass t headerHeight in
          (returned
             (if absFlow d <? 1 then null
              else if k t <? 0.1 then null
              else if leftOfViewport t then null
              else if aboveViewport t then null
              else if rightOfViewport t (viewportWidth props) then null
              else if belowViewport t (viewportHeight props) then null
              else fragment {| id := key d;
                               style_transform := t;
                               imageSource := image;
                               tooltipClassName := tooltip |}),
           Some cells)
      end
  end.

(** How one call ends. *)
Definition outcome (env : Imports) (props : ExchangeArrowProps)
    (headerHeight : float) (current : option Fiber) : Outcome :=
  fst (ExchangeArrow env props headerHeight current).

(** One render of the arrow by React: the call, then React's check, made
    once the call has returned, that it has reached every hook the last
    render has left.  A render that throws leaves the hooks as they
    were. *)
Definition render (env : Imports) (props : ExchangeArrowProps)
    (headerHeight : float) (current : option Fiber)
  : Outcome * option Fiber :=
  match current, lonlat (data props) with
  | Some (completed _ _), None =>
      (thrown ("Rendered fewer hooks than expected. This may be caused by "
                 ++ "an accidental early return statement.")%string,
       current)
  | _, _ => ExchangeArrow env props headerHeight current
  end.

(** *** Notions used to state the properties *)

(** The corners of the box around the anchor, as the tests compute them,
    are in order. *)
Definition boxIsRectangle (t : Transform) : Prop :=
  (x t - 100 * k t <=? x t + 100 * k t) = true /\
  (y t - 100 * k t <=? y t + 100 * k t) = true.

(** The box around the anchor and the viewport have a point in common. *)
Definition boxMeetsViewport (t : Transform) (width height : float) : Prop :=
  exists u v : float,
    (x t - 100 * k t <=? u) = true /\ (u <=? x t + 100 * k t) = true /\
    (y t - 100 * k t <=? v) = true /\ (v <=? y t + 100 * k t) = true /\
    (0 <=? u) = true /\ (u <=? width) = true /\
    (0 <=? v) = true /\ (v <=? height) = true.

(** The place of a double in the order of the doubles: its class and sign,
    then its exponent, then its mantissa; NaN has none. *)
Definition rank (f : spec_float) : option (Z * Z * Z) :=
  match f with
  | S754_nan => None
  | S754_infinity true => Some (-2, 0, 0)%Z
  | S754_infinity false => Some (2, 0, 0)%Z
  | S754_zero _ => Some (0, 0, 0)%Z
  | S754_finite true m e => Some (-1, - e, Zneg m)%Z
  | S754_finite false m e => Some (1, e, Zpos m)%Z
  end.

Definition lexcmp (a b : Z * Z * Z) : comparison :=
  let '(a1, a2, a3) := a in
  let '(b1, b2, b3) := b in
  match (a1 ?= b1)%Z with
  | Eq => match (a2 ?= b2)%Z with
          | Eq => (a3 ?= b3)%Z
          | c => c
          end
  | c => c
  end.

Definition place (f : float) : option (Z * Z * Z) := rank (Prim2SF f).

(** *** Collaborators and records for running the component *)

Definition sampleCo2Scale (co2 : float) : string :=
  if co2 <? 80 then "0"
  else if co2 <? 160 then "80"
  else "160".

Definition sampleSpeedScale (flow : float) : string :=
  if flow <? 100 then "0"
  else if flow <? 1000 then "1"
  else "2".

Definition sampleImports : Imports :=
  {| quantizedCo2IntensityScale := sampleCo2Scale;
     quantizedExchangeSpeedScale := sampleSpeedScale;
     resolvePath_pathname := fun to => ("/" ++ to)%string |}.

(** A record at (10, 50) with carbon intensity 120. *)
Definition scenarioData (position : option LngLat) (flow : Nullable)
    (heading : float) (identity : string) : ExchangeArrowData :=
  {| co2intensity := 120;
     lonlat := position;
     netFlow := flow;
     rotation := heading;
     key := identity |}.

(** Props for a record drawn on a map at zoom [zoom] that projects it to
    [(sx, sy)], in a viewport of [width] by [height]. *)
Definition sceneProps (d : ExchangeArrowData) (zoom sx sy width height : float)
    (colorblind : bool) : ExchangeArrowProps :=
  {| data := d;
     viewportWidth := width;
     viewportHeight := height;
     map := {| getZoom := zoom;
               project := fun _ => {| px := sx; py := sy |} |};
     colorBlindMode := colorblind |}.

(** The reference scenario: zoom 5, a viewport of 1000 by 800, the record
    projected to (500, 400). *)
Definition scenarioProps (position : option LngLat) (flow : Nullable)
    (heading : float) : ExchangeArrowProps :=
  sceneProps (scenarioData position flow heading "DE->FR")
    5 500 400 1000 800 false.

(** The same props with another net flow in the record. *)
Definition setNetFlow (flow : Nullable) (props : ExchangeArrowProps)
  : ExchangeArrowProps :=
  {| data := {| co2intensity := co2intensity (data props);
                lonlat := lonlat (data props);
                netFlow := flow;
                rotation := rotation (data props);
                key := key (data props) |};
     viewportWidth := viewportWidth props;
     viewportHeight := viewportHeight props;
     map := map props;
     colorBlindMode := colorBlindMode props |}.

End IEEE.

(** * Properties *)

(** ** The comparison operators *)

Lemma ltb_true_iff (a b : Q) : JS.ltb a b = true <-> a < b.
Proof.
  unfold JS.ltb. destruct (Qlt_le_dec a b) as [Hlt | Hle].
  - split; auto.
  - split; [discriminate | intro H; exfalso; lra].
Qed.

Lemma ltb_false_iff (a b : Q) : JS.ltb a b = false <-> b <= a.
Proof.
  unfold JS.ltb. destruct (Qlt_le_dec a b) as [Hlt | Hle].
  - split; [discriminate | intro H; exfalso; lra].
  - split; auto.
Qed.

Lemma gtb_true_iff (a b : Q) : JS.gtb a b = true <-> b < a.
Proof. unfold JS.gtb. apply ltb_true_iff. Qed.

Lemma gtb_false_iff (a b : Q) : JS.gtb a b = false <-> a <= b.
Proof. unfold JS.gtb. apply ltb_false_iff. Qed.

Lemma ltb_compat (a a' b b' : Q) :
  a == a' -> b == b' -> JS.ltb a b = JS.ltb a' b'.
Proof.
  intros Ha Hb.
  destruct (JS.ltb a' b') eqn:E.
  - apply ltb_true_iff in E. apply ltb_true_iff. lra.
  - apply ltb_false_iff in E. apply ltb_false_iff. lra.
Qed.

(** Turns every comparison of the component found in the context into the
    order relation it decides. *)
Ltac orders :=
  repeat match goal with
  | H : JS.ltb _ _ = true |- _ => apply ltb_true_iff in H
  | H : JS.ltb _ _ = false |- _ => apply ltb_false_iff in H
  | H : JS.gtb _ _ = true |- _ => apply gtb_true_iff in H
  | H : JS.gtb _ _ = false |- _ => apply gtb_false_iff in H
  end.

(** ** The transform and the viewport tests *)

Lemma transform_k props pos :
  k (transform props pos) = 0.04 + (getZoom (map props) - 1.5) * 0.1.
Proof. reflexivity. Qed.

(** The four tests, as inequalities. *)
Lemma tests_iff_half_planes (t : Transform) (width height : Q) :
  leftOfViewport t || aboveViewport t
  || rightOfViewport t width || belowViewport t height = true <->
  x t + 100 * k t < 0 \/ y t + 100 * k t < 0 \/
  x t - 100 * k t > width \/ y t - 100 * k t > height.
Proof.
  unfold leftOfViewport, aboveViewport, rightOfViewport, belowViewport.
  rewrite !orb_true_iff, !ltb_true_iff, !gtb_true_iff. tauto.
Qed.

Lemma is_opt_same (a b : option Q) :
  JS.is_opt a b = true -> JS.same_opt (JS.Math_abs a) (JS.Math_abs b).
Proof.
  destruct a as [p |], b as [q |]; cbn; try discriminate; auto.
  intro H. apply Qeq_bool_iff in H. rewrite H. reflexivity.
Qed.

Section Properties.

Variable env : Imports.

(** ** One render, gate by gate *)

Lemma rendered_no_position props headerHeight cell :
  lonlat (data props) = None -> rendered env props headerHeight cell = null.
Proof.
  intro H. unfold rendered, ExchangeArrow. rewrite H. reflexivity.
Qed.

(** With a position, the element is decided by the six tests in their
    order; the image is the one [useMemo] hands out. *)
Lemma rendered_with_position props headerHeight cell pos :
  lonlat (data props) = Some pos ->
  rendered env props headerHeight cell =
    let t := transform props pos in
    if JS.ltb (absFlow (data props)) 1 then null
    else if JS.ltb (k t) 0.1 then null
    else if leftOfViewport t then null
    else if aboveViewport t then null
    else if rightOfViewport t (viewportWidth props) then null
    else if belowViewport t (viewportHeight props) then null
    else fragment
           {| id := key (data props);
              style_transform := t;
              imageSource :=
                fst (useMemo cell
                       (fun _ => arrowImage env (colorBlindMode props)
                                   (co2intensity (data props))
                                   (netFlow (data props)))
                       (colorBlindMode props, co2intensity (data props),
                        netFlow (data props)));
              tooltipClassName := tooltipClass t headerHeight |}.
Proof.
  intro H. unfold rendered, ExchangeArrow. rewrite H.
  destruct (useMemo cell _ _) as [img cell']. cbv zeta.
  repeat match goal with
  | |- context [if ?b then _ else _] => destruct b
  end; reflexivity.
Qed.

(** C1. A record without geographic position renders nothing, whatever its
    net flow, carbon intensity, rotation and key, whatever the map, the
    viewport size, the colorblind flag, the header height and the state of
    the memo cell. *)
Theorem no_position_renders_nothing :
  forall (co2 : Q) (flow : option Q) (rot : Q) (identity : string)
         (width height : Q) (m : Map) (colorblind : bool)
         (headerHeight : Q) (cell : MemoCell),
    rendered env
      {| data := {| co2intensity := co2; lonlat := None;
                    netFlow := flow; rotation := rot;
                    key := identity |};
         viewportWidth := width; viewportHeight := height;
         map := m; colorBlindMode := colorblind |}
      headerHeight cell = null.
Proof.
  intros. apply rendered_no_position. reflexivity.
Qed.

(** C2. A record with a position whose net flow has magnitude below 1
    renders nothing. *)
Theorem small_flow_renders_nothing :
  forall props headerHeight cell pos flow,
    lonlat (data props) = Some pos ->
    netFlow (data props) = Some flow ->
    Qabs flow < 1 ->
    rendered env props headerHeight cell = null.
Proof.
  intros props headerHeight cell pos flow Hpos Hflow Hsmall.
  rewrite (rendered_with_position _ _ _ _ Hpos). cbv zeta.
  assert (Hgate : JS.ltb (absFlow (data props)) 1 = true).
  { apply ltb_true_iff. unfold absFlow. rewrite Hflow. exact Hsmall. }
  rewrite Hgate. reflexivity.
Qed.

(** C10. A record whose net flow is absent renders nothing: the magnitude
    read by the gate is [abs (netFlow ?? 0) = 0], below 1. *)
Theorem absent_flow_renders_nothing :
  forall props headerHeight cell,
    netFlow (data props) = None ->
    absFlow (data props) == 0 /\
    JS.ltb (absFlow (data props)) 1 = true /\
    rendered env props headerHeight cell = null /\
    (forall out, rendered env props headerHeight cell <> fragment out).
Proof.
  intros props headerHeight cell Hflow.
  assert (Habs : absFlow (data props) == 0).
  { unfold absFlow. rewrite Hflow. reflexivity. }
  assert (Hgate : JS.ltb (absFlow (data props)) 1 = true).
  { apply ltb_true_iff. rewrite Habs. reflexivity. }
  assert (Hnull : rendered env props headerHeight cell = null).
  { destruct (lonlat (data props)) as [pos |] eqn:Hpos.
    - rewrite (rendered_with_position _ _ _ _ Hpos). cbv zeta.
      rewrite Hgate. reflexivity.
    - apply rendered_no_position. exact Hpos. }
  repeat split; auto.
  intros out Hout. rewrite Hnull in Hout. discriminate.
Qed.

(** ** Scale *)

(** Whatever is drawn carries the transform of the record's position. *)
Lemma rendered_fragment_inv props headerHeight cell out :
  rendered env props headerHeight cell = fragment out ->
  exists pos,
    lonlat (data props) = Some pos /\
    style_transform out = transform props pos /\
    id out = key (data props) /\
    tooltipClassName out = tooltipClass (transform props pos) headerHeight /\
    JS.ltb (absFlow (data props)) 1 = false /\
    JS.ltb (k (transform props pos)) 0.1 = false /\
    leftOfViewport (transform props pos) = false /\
    aboveViewport (transform props pos) = false /\
    rightOfViewport (transform props pos) (viewportWidth props) = false /\
    belowViewport (transform props pos) (viewportHeight props) = false.
Proof.
  intro H.
  destruct (lonlat (data props)) as [pos |] eqn:Hpos.
  - rewrite (rendered_with_position _ _ _ _ Hpos) in H. cbv zeta in H.
    exists pos.
    destruct (JS.ltb (absFlow (data props)) 1); [discriminate |].
    destruct (JS.ltb (k (transform props pos)) 0.1); [discriminate |].
    destruct (leftOfViewport (transform props pos)); [discriminate |].
    destruct (aboveViewport (transform props pos)); [discriminate |].
    destruct (rightOfViewport (transform props pos) (viewportWidth props));
      [discriminate |].
    destruct (belowViewport (transform props pos) (viewportHeight props));
      [discriminate |].
    injection H as <-. cbn. repeat split; reflexivity.
  - rewrite (rendered_no_position _ _ _ Hpos) in H. discriminate.
Qed.

Lemma rendered_tiny_scale props headerHeight cell :
  0.04 + (getZoom (map props) - 1.5) * 0.1 < 0.1 ->
  rendered env props headerHeight cell = null.
Proof.
  intro Hk.
  destruct (lonlat (data props)) as [pos |] eqn:Hpos.
  - rewrite (rendered_with_position _ _ _ _ Hpos). cbv zeta.
    destruct (JS.ltb (absFlow (data props)) 1); [reflexivity |].
    assert (Hgate : JS.ltb (k (transform props pos)) 0.1 = true).
    { apply ltb_true_iff. rewrite transform_k. exact Hk. }
    rewrite Hgate. reflexivity.
  - apply rendered_no_position. exact Hpos.
Qed.

(** A record one unit of flow strong, drawn at the origin of a viewport
    reduced to its origin, is visible at every scale of at least 0.1. *)
Lemma rendered_at_origin zoom headerHeight cell :
  0.1 <= 0.04 + (zoom - 1.5) * 0.1 ->
  exists out,
    rendered env (sceneProps (scenarioData (Some 1) "") zoom 0 0 0 0 false)
      headerHeight cell = fragment out /\
    k (style_transform out) = 0.04 + (zoom - 1.5) * 0.1.
Proof.
  intro Hk.
  set (props := sceneProps (scenarioData (Some 1) "") zoom 0 0 0 0 false).
  rewrite (rendered_with_position props headerHeight cell (10, 50) eq_refl).
  cbv zeta.
  assert (G1 : JS.ltb (absFlow (data props)) 1 = false).
  { apply ltb_false_iff. vm_compute. discriminate. }
  assert (G2 : JS.ltb (k (transform props (10, 50))) 0.1 = false).
  { apply ltb_false_iff. exact Hk. }
  assert (G3 : leftOfViewport (transform props (10, 50)) = false).
  { apply ltb_false_iff. cbn. lra. }
  assert (G4 : aboveViewport (transform props (10, 50)) = false).
  { apply ltb_false_iff. cbn. lra. }
  assert (G5 : rightOfViewport (transform props (10, 50))
                 (viewportWidth props) = false).
  { apply gtb_false_iff. cbn. lra. }
  assert (G6 : belowViewport (transform props (10, 50))
                 (viewportHeight props) = false).
  { apply gtb_false_iff. cbn. lra. }
  rewrite G1, G2, G3, G4, G5, G6.
  eexists. split; reflexivity.
Qed.

(** C3. The scale of the transform is [0.04 + (zoom - 1.5) * 0.1], on every
    record with a position and in everything that is drawn; it is not
    clamped from above (arrows are drawn at scales beyond any bound); a
    scale below 0.1 renders nothing; at every zoom of at most 0.5 the scale
    is below 0.1 and nothing is rendered. *)
Theorem scale_is_affine_in_zoom :
  forall props headerHeight cell,
    let scale := 0.04 + (getZoom (map props) - 1.5) * 0.1 in
    (forall pos, k (transform props pos) = scale) /\
    (forall out, rendered env props headerHeight cell = fragment out ->
                 k (style_transform out) = scale) /\
    (forall bound, exists props' out',
        rendered env props' headerHeight cell = fragment out' /\
        k (style_transform out')
          = 0.04 + (getZoom (map props') - 1.5) * 0.1 /\
        bound < k (style_transform out')) /\
    (scale < 0.1 -> rendered env props headerHeight cell = null) /\
    (getZoom (map props) <= 0.5 ->
       scale < 0.1 /\ rendered env props headerHeight cell = null).
Proof.
  intros props headerHeight cell scale. subst scale.
  split; [| split; [| split; [| split]]].
  - intro pos. apply transform_k.
  - intros out Hout.
    destruct (rendered_fragment_inv _ _ _ _ Hout) as (pos & _ & Ht & _).
    rewrite Ht. apply transform_k.
  - intro bound.
    pose proof (Qabs_nonneg bound) as Hnn.
    pose proof (Qle_Qabs bound) as Hle.
    destruct (rendered_at_origin (10 * Qabs bound + 3) headerHeight cell)
      as (out' & Hview & Hk); [lra |].
    eexists. exists out'. split; [exact Hview |]. split.
    + rewrite Hk. reflexivity.
    + rewrite Hk. lra.
  - apply rendered_tiny_scale.
  - intro Hzoom.
    assert (Hk : 0.04 + (getZoom (map props) - 1.5) * 0.1 < 0.1) by lra.
    split; [exact Hk | apply rendered_tiny_scale; exact Hk].
Qed.

(** ** The reference scenario *)

(** C7. The record at (10, 50) with net flow 500, carbon intensity 120 and
    rotation 0, at zoom 5 in a viewport of 1000 by 800 and projected to
    (500, 400), is drawn with scale 0.04 + 3.5 * 0.1 = 0.39 and rotation
    180, and none of the four viewport tests succeeds. *)
Theorem reference_scenario_is_drawn :
  forall identity colorblind headerHeight cell,
    let props := scenarioProps (Some 500) identity colorblind in
    exists out,
      rendered env props headerHeight cell = fragment out /\
      k (style_transform out) == 0.04 + 3.5 * 0.1 /\
      k (style_transform out) == 0.39 /\
      r (style_transform out) == 180 /\
      leftOfViewport (style_transform out) = false /\
      aboveViewport (style_transform out) = false /\
      rightOfViewport (style_transform out) (viewportWidth props) = false /\
      belowViewport (style_transform out) (viewportHeight props) = false.
Proof.
  intros identity colorblind headerHeight cell props.
  rewrite (rendered_with_position props headerHeight cell (10, 50) eq_refl).
  cbv zeta.
  change (JS.ltb (absFlow (data props)) 1) with false.
  change (JS.ltb (k (transform props (10, 50))) 0.1) with false.
  change (leftOfViewport (transform props (10, 50))) with false.
  change (aboveViewport (transform props (10, 50))) with false.
  change (rightOfViewport (transform props (10, 50)) (viewportWidth props))
    with false.
  change (belowViewport (transform props (10, 50)) (viewportHeight props))
    with false.
  cbv iota.
  eexists. split; [reflexivity |].
  cbn [style_transform].
  repeat split; reflexivity.
Qed.

(** ** The memo cell *)

Section Memo.

Hypothesis co2_ext : co2ScaleExtensional env.
Hypothesis speed_ext : speedScaleExtensional env.

(** Dependencies that [Object.is] identifies have the same image. *)
Lemma image_same_deps (a b : Deps) :
  same_deps a b = true -> imageOfDeps env a = imageOfDeps env b.
Proof.
  destruct a as [[cb1 ci1] nf1], b as [[cb2 ci2] nf2].
  unfold same_deps. rewrite !andb_true_iff. intros [[Hcb Hci] Hnf].
  apply eqb_prop in Hcb. apply Qeq_bool_iff in Hci.
  apply is_opt_same in Hnf. subst cb2.
  cbn. unfold arrowImage.
  rewrite (co2_ext _ _ Hci), (speed_ext _ _ Hnf). reflexivity.
Qed.

Lemma useMemo_value cell deps :
  cellOk env cell ->
  fst (useMemo cell (fun _ => imageOfDeps env deps) deps)
  = imageOfDeps env deps.
Proof.
  intro Hok. destruct cell as [[prev value] |]; cbn; [| reflexivity].
  destruct (same_deps prev deps) eqn:E; cbn; [| reflexivity].
  cbn in Hok. rewrite Hok. apply image_same_deps. exact E.
Qed.

Lemma useMemo_ok cell deps :
  cellOk env cell ->
  cellOk env (snd (useMemo cell (fun _ => imageOfDeps env deps) deps)).
Proof.
  intro Hok. destruct cell as [[prev value] |]; cbn; [| reflexivity].
  destruct (same_deps prev deps); cbn; [exact Hok | reflexivity].
Qed.

Lemma ExchangeArrow_ok props headerHeight cell :
  cellOk env cell ->
  cellOk env (snd (ExchangeArrow env props headerHeight cell)).
Proof.
  intro Hok. unfold ExchangeArrow.
  destruct (lonlat (data props)) as [pos |]; [| exact Hok].
  pose proof (useMemo_ok cell
                (colorBlindMode props, co2intensity (data props),
                 netFlow (data props)) Hok) as Hnext.
  cbn [imageOfDeps] in Hnext.
  destruct (useMemo cell _ _) as [img cell']. cbn [snd] in Hnext.
  repeat match goal with
  | |- context [if ?b then _ else _] => destruct b
  end; exact Hnext.
Qed.

Lemma cellAfter_ok history cell :
  cellOk env cell -> cellOk env (cellAfter env history cell).
Proof.
  revert cell. induction history as [| [props headerHeight] rest IH];
    intros cell Hok; cbn.
  - exact Hok.
  - apply IH. apply ExchangeArrow_ok. exact Hok.
Qed.

(** On a consistent cell the image drawn is the image of the current
    dependencies, stored or not. *)
Lemma rendered_consistent props headerHeight cell pos :
  cellOk env cell ->
  lonlat (data props) = Some pos ->
  rendered env props headerHeight cell =
    let t := transform props pos in
    if JS.ltb (absFlow (data props)) 1 then null
    else if JS.ltb (k t) 0.1 then null
    else if leftOfViewport t then null
    else if aboveViewport t then null
    else if rightOfViewport t (viewportWidth props) then null
    else if belowViewport t (viewportHeight props) then null
    else fragment
           {| id := key (data props);
              style_transform := t;
              imageSource := arrowImage env (colorBlindMode props)
                               (co2intensity (data props))
                               (netFlow (data props));
              tooltipClassName := tooltipClass t headerHeight |}.
Proof.
  intros Hok Hpos. rewrite (rendered_with_position _ _ _ _ Hpos).
  pose proof (useMemo_value cell
                (colorBlindMode props, co2intensity (data props),
                 netFlow (data props)) Hok) as Hval.
  cbn [imageOfDeps] in Hval. rewrite Hval. reflexivity.
Qed.



(** ** The image *)

(** C9, as amended.  The image source of everything that is drawn is the
    resolved pathname of
    [images/arrows/{prefix}arrow-{intensityTier}-animated-{speedTier}],
    where the prefix is [colorblind-] in colorblind mode and empty
    otherwise, and the tiers are the quantized carbon intensity and the
    quantized magnitude of the net flow; it is therefore the same for any
    two renders that agree on the colorblind flag, the carbon intensity and
    the magnitude of the net flow, whatever else differs and whatever was
    rendered before. *)
Theorem asset_key_is_pure :
  forall history props headerHeight out,
    rendered env props headerHeight (cellAfter env history None)
    = fragment out ->
    imageSource out
    = resolvePath_pathname env
        ("images/arrows/"
           ++ (if colorBlindMode props then "colorblind-" else "")
           ++ "arrow-"
           ++ quantizedCo2IntensityScale env (co2intensity (data props))
           ++ "-animated-"
           ++ quantizedExchangeSpeedScale env
                (JS.Math_abs (netFlow (data props)))) /\
    (forall history' props' headerHeight' out',
        rendered env props' headerHeight' (cellAfter env history' None)
        = fragment out' ->
        colorBlindMode props' = colorBlindMode props ->
        co2intensity (data props') == co2intensity (data props) ->
        JS.same_opt (JS.Math_abs (netFlow (data props')))
                    (JS.Math_abs (netFlow (data props))) ->
        imageSource out' = imageSource out).
Proof.
  assert (Himage : forall history props headerHeight out,
    rendered env props headerHeight (cellAfter env history None)
    = fragment out ->
    imageSource out
    = arrowImage env (colorBlindMode props) (co2intensity (data props))
        (netFlow (data props))).
  { intros history props headerHeight out Hout.
    destruct (rendered_fragment_inv _ _ _ _ Hout) as (pos & Hpos & _).
    rewrite (rendered_consistent props headerHeight _ pos
               (cellAfter_ok history None I) Hpos) in Hout.
    cbv zeta in Hout.
    repeat match type of Hout with
    | context [if ?b then _ else _] => destruct b; try discriminate
    end.
    injection Hout as <-. reflexivity. }
  intros history props headerHeight out Hout. split.
  - rewrite (Himage _ _ _ _ Hout). reflexivity.
  - intros history' props' headerHeight' out' Hout' Hcb Hci Hflow.
    rewrite (Himage _ _ _ _ Hout), (Himage _ _ _ _ Hout').
    unfold arrowImage.
    rewrite Hcb, (co2_ext _ _ Hci), (speed_ext _ _ Hflow). reflexivity.
Qed.

End Memo.

End Properties.

(** * The sample tables *)

Lemma sampleCo2Scale_extensional : co2ScaleExtensional sampleImports.
Proof.
  intros a b Hab. cbn. unfold sampleCo2Scale.
  rewrite (ltb_compat a b 80 80 Hab (Qeq_refl _)).
  rewrite (ltb_compat a b 160 160 Hab (Qeq_refl _)).
  reflexivity.
Qed.

Lemma sampleSpeedScale_extensional : speedScaleExtensional sampleImports.
Proof.
  intros [p |] [q |] Hpq; cbn in Hpq; try contradiction; [| reflexivity].
  cbn. unfold sampleSpeedScale.
  rewrite (ltb_compat p q 100 100 Hpq (Qeq_refl _)).
  rewrite (ltb_compat p q 1000 1000 Hpq (Qeq_refl _)).
  reflexivity.
Qed.

(** * The component on concrete records *)

(** The scenarios of the specification, run with the sample tables. *)

Example scenario_rendered :
  rendered sampleImports (scenarioProps (Some 500) "DE->FR" true) 0 None
  = fragment
      {| id := "DE->FR";
         style_transform := transform (scenarioProps (Some 500) "DE->FR" true)
                              (10, 50);
         imageSource := "/images/arrows/colorblind-arrow-80-animated-1";
         tooltipClassName :=
           "max-h-[256px] max-w-[512px] hidden md:flex top-[-76px]" |}.
Proof. reflexivity. Qed.

Example scenario_half_unit_flow :
  rendered sampleImports (scenarioProps (Some 0.5) "DE->FR" false) 0 None
  = null.
Proof. reflexivity. Qed.

Example scenario_zoom_one :
  k (transform (sceneProps (scenarioData (Some 500) "DE->FR")
                  1 500 400 1000 800 false) (10, 50)) == - 0.01 /\
  rendered sampleImports
    (sceneProps (scenarioData (Some 500) "DE->FR") 1 500 400 1000 800 false)
    0 None = null.
Proof. split; reflexivity. Qed.

Example scenario_left_of_viewport :
  let props := sceneProps (scenarioData (Some 500) "DE->FR")
                 3.1 (- 500) 400 1000 800 false in
  k (transform props (10, 50)) == 0.2 /\
  x (transform props (10, 50)) + 100 * k (transform props (10, 50))
    == - 480 /\
  leftOfViewport (transform props (10, 50)) = true /\
  rendered sampleImports props 0 None = null.
Proof. repeat split; reflexivity. Qed.

(** A record in the middle of a viewport is never dropped by the viewport
    tests. *)
Example centre_is_never_culled (t : Transform) (width height : Q) :
  0 <= width -> 0 <= height -> 0 < k t ->
  x t == width / 2 -> y t == height / 2 ->
  leftOfViewport t || aboveViewport t
  || rightOfViewport t width || belowViewport t height = false.
Proof.
  intros Hw Hh Hk Hx Hy.
  assert (Hx' : x t == width * (1 # 2)) by (rewrite Hx; field).
  assert (Hy' : y t == height * (1 # 2)) by (rewrite Hy; field).
  destruct (leftOfViewport t || aboveViewport t
            || rightOfViewport t width || belowViewport t height) eqn:E;
    [| reflexivity].
  apply tests_iff_half_planes in E. exfalso.
  clear Hx Hy. destruct E as [H | [H | [H | H]]]; lra.
Qed.

(** ** Instances of the properties *)

Lemma small_flow_renders_nothing_witness :
  let props := scenarioProps (Some 0.5) "DE->FR" false in
  lonlat (data props) = Some (10, 50) /\
  netFlow (data props) = Some 0.5 /\
  Qabs 0.5 < 1 /\
  rendered sampleImports props 0 None = null.
Proof.
  cbv zeta.
  assert (H1 : lonlat (data (scenarioProps (Some 0.5) "DE->FR" false))
               = Some (10, 50)) by reflexivity.
  assert (H2 : netFlow (data (scenarioProps (Some 0.5) "DE->FR" false))
               = Some 0.5) by reflexivity.
  assert (H3 : Qabs 0.5 < 1) by reflexivity.
  split; [exact H1 |]. split; [exact H2 |]. split; [exact H3 |].
  exact (small_flow_renders_nothing sampleImports _ 0 None (10, 50) 0.5
           H1 H2 H3).
Defined.

Lemma absent_flow_renders_nothing_witness :
  let props := scenarioProps None "DE->FR" false in
  netFlow (data props) = None /\
  rendered sampleImports props 0 None = null.
Proof.
  cbv zeta.
  assert (H : netFlow (data (scenarioProps None "DE->FR" false)) = None)
    by reflexivity.
  split; [exact H |].
  exact (proj1 (proj2 (proj2
           (absent_flow_renders_nothing sampleImports _ 0 None H)))).
Defined.

Lemma scale_is_affine_in_zoom_witness :
  let props := sceneProps (scenarioData (Some 500) "DE->FR")
                 0.5 500 400 1000 800 false in
  getZoom (map props) <= 0.5 /\
  0.04 + (getZoom (map props) - 1.5) * 0.1 < 0.1 /\
  rendered sampleImports props 0 None = null.
Proof.
  cbv zeta.
  assert (H : getZoom (map (sceneProps (scenarioData (Some 500) "DE->FR")
                              0.5 500 400 1000 800 false)) <= 0.5)
    by (vm_compute; discriminate).
  split; [exact H |].
  exact (proj2 (proj2 (proj2 (proj2
           (scale_is_affine_in_zoom sampleImports _ 0 None)))) H).
Defined.


Lemma asset_key_is_pure_witness :
  exists out,
    rendered sampleImports (scenarioProps (Some 500) "DE->FR" true) 0
      (cellAfter sampleImports
         [(scenarioProps (Some 900) "DE->FR" false, 0)] None)
    = fragment out /\
    imageSource out = "/images/arrows/colorblind-arrow-80-animated-1".
Proof.
  eexists. split.
  - reflexivity.
  - exact (proj1 (asset_key_is_pure sampleImports
                    sampleCo2Scale_extensional sampleSpeedScale_extensional
                    [(scenarioProps (Some 900) "DE->FR" false, 0)]
                    (scenarioProps (Some 500) "DE->FR" true) 0 _ eq_refl)).
Defined.

(** ** Where the specification and the component part *)

(** C9, as stated, fails: the image source drawn in colorblind mode is not
    [colorblind-{arrowBase}-{intensityTier}-{speedTier}] for any arrow
    base, since it starts with the directory of the arrow images and has
    [animated] between the two tiers. *)
Lemma asset_key_counterexample :
  exists out,
    rendered sampleImports (scenarioProps (Some 500) "DE->FR" true) 0 None
    = fragment out /\
    imageSource out = "/images/arrows/colorblind-arrow-80-animated-1" /\
    ~ (exists arrowBase,
          imageSource out
          = specAssetKey arrowBase true (sampleCo2Scale 120)
              (sampleSpeedScale (JS.Math_abs (Some 500)))).
Proof.
  eexists. split; [reflexivity |]. split; [reflexivity |].
  intros [arrowBase H]. cbn in H. discriminate.
Qed.

(** * Further properties of [ExchangeArrow] *)

(** ** What decides whether an arrow is drawn *)

(** With a position, the element is [null] exactly when one of the six
    tests succeeds. *)
Lemma rendered_null_iff_gates env props headerHeight cell pos :
  lonlat (data props) = Some pos ->
  rendered env props headerHeight cell = null <->
  JS.ltb (absFlow (data props)) 1
  || JS.ltb (k (transform props pos)) 0.1
  || leftOfViewport (transform props pos)
  || aboveViewport (transform props pos)
  || rightOfViewport (transform props pos) (viewportWidth props)
  || belowViewport (transform props pos) (viewportHeight props) = true.
Proof.
  intro Hpos. rewrite (rendered_with_position _ _ _ _ _ Hpos). cbv zeta.
  destruct (JS.ltb (absFlow (data props)) 1);
    destruct (JS.ltb (k (transform props pos)) 0.1);
    destruct (leftOfViewport (transform props pos));
    destruct (aboveViewport (transform props pos));
    destruct (rightOfViewport (transform props pos) (viewportWidth props));
    destruct (belowViewport (transform props pos) (viewportHeight props));
    cbn; split; intro H; try reflexivity; discriminate.
Qed.

(** X1. Whether an arrow is drawn depends only on the magnitude of its
    flow, the zoom, the point it is projected to and the viewport size:
    two renders of records with a position that agree on these are both
    [null] or both drawn, whatever their carbon intensity, rotation, key,
    flow direction, colorblind flag, header height, memo cell and imported
    functions. *)
Theorem visibility_depends_on_geometry_only :
  forall env env' props props' headerHeight headerHeight' cell cell'
         pos pos',
    lonlat (data props) = Some pos ->
    lonlat (data props') = Some pos' ->
    absFlow (data props) == absFlow (data props') ->
    getZoom (map props) == getZoom (map props') ->
    px (project (map props) pos) == px (project (map props') pos') ->
    py (project (map props) pos) == py (project (map props') pos') ->
    viewportWidth props == viewportWidth props' ->
    viewportHeight props == viewportHeight props' ->
    (rendered env props headerHeight cell = null <->
     rendered env' props' headerHeight' cell' = null).
Proof.
  intros env env' props props' headerHeight headerHeight' cell cell'
         pos pos' Hpos Hpos' Hflow Hzoom Hx Hy Hw Hh.
  rewrite (rendered_null_iff_gates env props headerHeight cell pos Hpos).
  rewrite (rendered_null_iff_gates env' props' headerHeight' cell' pos'
             Hpos').
  assert (Hk : k (transform props pos) == k (transform props' pos')).
  { rewrite !transform_k. rewrite Hzoom. reflexivity. }
  unfold leftOfViewport, aboveViewport, rightOfViewport, belowViewport,
    JS.gtb.
  change (x (transform props pos)) with (px (project (map props) pos)).
  change (y (transform props pos)) with (py (project (map props) pos)).
  change (x (transform props' pos')) with (px (project (map props') pos')).
  change (y (transform props' pos')) with (py (project (map props') pos')).
  rewrite (ltb_compat (absFlow (data props)) (absFlow (data props')) 1 1)
    by (try reflexivity; assumption).
  rewrite (ltb_compat (k (transform props pos)) (k (transform props' pos'))
             0.1 0.1) by (try reflexivity; assumption).
  rewrite (ltb_compat
             (px (project (map props) pos) + 100 * k (transform props pos))
             (px (project (map props') pos')
              + 100 * k (transform props' pos')) 0 0)
    by (try reflexivity; rewrite Hx, Hk; reflexivity).
  rewrite (ltb_compat
             (py (project (map props) pos) + 100 * k (transform props pos))
             (py (project (map props') pos')
              + 100 * k (transform props' pos')) 0 0)
    by (try reflexivity; rewrite Hy, Hk; reflexivity).
  rewrite (ltb_compat (viewportWidth props) (viewportWidth props')
             (px (project (map props) pos) - 100 * k (transform props pos))
             (px (project (map props') pos')
              - 100 * k (transform props' pos')))
    by (try assumption; rewrite Hx, Hk; reflexivity).
  rewrite (ltb_compat (viewportHeight props) (viewportHeight props')
             (py (project (map props) pos) - 100 * k (transform props pos))
             (py (project (map props') pos')
              - 100 * k (transform props' pos')))
    by (try assumption; rewrite Hy, Hk; reflexivity).
  tauto.
Qed.

(** X2. The colorblind flag, the memo cell and the imported functions reach
    the image only: two renders of the same props that differ in them are
    both [null], or both drawn with the same id, transform and tooltip
    class. *)
Theorem only_the_image_depends_on_colorblind_mode :
  forall env env' props headerHeight cell cell' colorblind colorblind',
    sameButImage
      (rendered env (setColorBlindMode colorblind props) headerHeight cell)
      (rendered env' (setColorBlindMode colorblind' props) headerHeight
         cell').
Proof.
  intros env env' props headerHeight cell cell' colorblind colorblind'.
  destruct (lonlat (data props)) as [pos |] eqn:Hpos.
  - rewrite (rendered_with_position env (setColorBlindMode colorblind props)
               headerHeight cell pos Hpos).
    rewrite (rendered_with_position env'
               (setColorBlindMode colorblind' props) headerHeight cell' pos
               Hpos).
    cbv zeta.
    change (transform (setColorBlindMode colorblind props) pos)
      with (transform props pos).
    change (transform (setColorBlindMode colorblind' props) pos)
      with (transform props pos).
    cbn [data viewportWidth viewportHeight setColorBlindMode].
    destruct (JS.ltb (absFlow (data props)) 1); [exact I |].
    destruct (JS.ltb (k (transform props pos)) 0.1); [exact I |].
    destruct (leftOfViewport (transform props pos)); [exact I |].
    destruct (aboveViewport (transform props pos)); [exact I |].
    destruct (rightOfViewport (transform props pos) (viewportWidth props));
      [exact I |].
    destruct (belowViewport (transform props pos) (viewportHeight props));
      [exact I |].
    cbn. repeat split; reflexivity.
  - rewrite (rendered_no_position env (setColorBlindMode colorblind props)
               headerHeight cell Hpos).
    rewrite (rendered_no_position env' (setColorBlindMode colorblind' props)
               headerHeight cell' Hpos).
    exact I.
Qed.

(** X3. Arrows appear from zoom 2.1 on: the scale is below 0.1 exactly
    when the zoom is below 2.1, nothing is drawn below that zoom, and
    whatever is drawn is drawn at a zoom of at least 2.1. *)
Theorem arrows_appear_from_zoom_2_1 :
  forall env props headerHeight cell,
    (forall pos,
        k (transform props pos) < 0.1 <-> getZoom (map props) < 2.1) /\
    (getZoom (map props) < 2.1 ->
       rendered env props headerHeight cell = null) /\
    (forall out, rendered env props headerHeight cell = fragment out ->
                 2.1 <= getZoom (map props)).
Proof.
  intros env props headerHeight cell. split; [| split].
  - intro pos. rewrite transform_k. split; intro H; lra.
  - intro Hzoom. apply rendered_tiny_scale. lra.
  - intros out Hout.
    destruct (rendered_fragment_inv _ _ _ _ _ Hout)
      as (pos & _ & _ & _ & _ & _ & Hk & _).
    apply ltb_false_iff in Hk. rewrite transform_k in Hk. lra.
Qed.

(** The six tests all fail: the fragment is drawn. *)
Lemma rendered_drawn env props headerHeight cell pos :
  lonlat (data props) = Some pos ->
  1 <= absFlow (data props) ->
  0.1 <= k (transform props pos) ->
  0 <= x (transform props pos) + 100 * k (transform props pos) ->
  0 <= y (transform props pos) + 100 * k (transform props pos) ->
  x (transform props pos) - 100 * k (transform props pos)
    <= viewportWidth props ->
  y (transform props pos) - 100 * k (transform props pos)
    <= viewportHeight props ->
  rendered env props headerHeight cell =
    fragment
      {| id := key (data props);
         style_transform := transform props pos;
         imageSource :=
           fst (useMemo cell
                  (fun _ => arrowImage env (colorBlindMode props)
                              (co2intensity (data props))
                              (netFlow (data props)))
                  (colorBlindMode props, co2intensity (data props),
                   netFlow (data props)));
         tooltipClassName := tooltipClass (transform props pos)
                               headerHeight |}.
Proof.
  intros Hpos H1 H2 H3 H4 H5 H6.
  rewrite (rendered_with_position _ _ _ _ _ Hpos). cbv zeta.
  apply ltb_false_iff in H1, H2, H3, H4.
  apply gtb_false_iff in H5, H6.
  unfold leftOfViewport, aboveViewport, rightOfViewport, belowViewport.
  rewrite H1, H2, H3, H4, H5, H6. reflexivity.
Qed.

(** What is known of the props when a fragment is drawn. *)
Lemma rendered_fragment_bounds env props headerHeight cell out :
  rendered env props headerHeight cell = fragment out ->
  exists pos,
    lonlat (data props) = Some pos /\
    style_transform out = transform props pos /\
    1 <= absFlow (data props) /\
    0.1 <= k (transform props pos) /\
    0 <= x (transform props pos) + 100 * k (transform props pos) /\
    0 <= y (transform props pos) + 100 * k (transform props pos) /\
    x (transform props pos) - 100 * k (transform props pos)
      <= viewportWidth props /\
    y (transform props pos) - 100 * k (transform props pos)
      <= viewportHeight props.
Proof.
  intro Hout.
  destruct (rendered_fragment_inv _ _ _ _ _ Hout)
    as (pos & Hpos & Ht & _ & _ & G1 & G2 & G3 & G4 & G5 & G6).
  unfold leftOfViewport, aboveViewport, rightOfViewport, belowViewport
    in G3, G4, G5, G6.
  orders. exists pos. repeat split; assumption.
Qed.

(** X4. With the projected point, the flow and the viewport unchanged,
    raising the zoom never hides an arrow: it stays drawn at the same
    point with the same rotation, at a scale at least as large. *)
Theorem zooming_in_keeps_arrows :
  forall env props headerHeight cell cell' zoom out,
    getZoom (map props) <= zoom ->
    rendered env props headerHeight cell = fragment out ->
    exists out',
      rendered env (setZoom zoom props) headerHeight cell' = fragment out' /\
      x (style_transform out') = x (style_transform out) /\
      y (style_transform out') = y (style_transform out) /\
      r (style_transform out') = r (style_transform out) /\
      k (style_transform out) <= k (style_transform out').
Proof.
  intros env props headerHeight cell cell' zoom out Hzoom Hout.
  destruct (rendered_fragment_bounds _ _ _ _ _ Hout)
    as (pos & Hpos & Ht & H1 & H2 & H3 & H4 & H5 & H6).
  assert (Hk : k (transform props pos)
               <= k (transform (setZoom zoom props) pos)).
  { rewrite !transform_k. cbn. lra. }
  eexists. split.
  - apply (rendered_drawn env (setZoom zoom props) headerHeight cell' pos).
    + exact Hpos.
    + exact H1.
    + lra.
    + change (x (transform (setZoom zoom props) pos))
        with (x (transform props pos)). lra.
    + change (y (transform (setZoom zoom props) pos))
        with (y (transform props pos)). lra.
    + change (x (transform (setZoom zoom props) pos))
        with (x (transform props pos)).
      change (viewportWidth (setZoom zoom props))
        with (viewportWidth props). lra.
    + change (y (transform (setZoom zoom props) pos))
        with (y (transform props pos)).
      change (viewportHeight (setZoom zoom props))
        with (viewportHeight props). lra.
  - cbn [style_transform]. rewrite Ht.
    repeat split; try reflexivity. exact Hk.
Qed.

(** X5. Enlarging the viewport never hides an arrow: what is drawn in a
    viewport is drawn unchanged in every viewport at least as wide and as
    high. *)
Theorem larger_viewport_keeps_arrows :
  forall env props headerHeight cell width height out,
    viewportWidth props <= width ->
    viewportHeight props <= height ->
    rendered env props headerHeight cell = fragment out ->
    rendered env (setViewport width height props) headerHeight cell
    = fragment out.
Proof.
  intros env props headerHeight cell width height out Hw Hh Hout.
  destruct (rendered_fragment_bounds _ _ _ _ _ Hout)
    as (pos & Hpos & Ht & H1 & H2 & H3 & H4 & H5 & H6).
  rewrite (rendered_drawn env props headerHeight cell pos
             Hpos H1 H2 H3 H4 H5 H6) in Hout.
  rewrite <- Hout.
  apply (rendered_drawn env (setViewport width height props) headerHeight
           cell pos); try assumption.
  - change (viewportWidth (setViewport width height props)) with width.
    change (x (transform (setViewport width height props) pos))
      with (x (transform props pos)).
    change (k (transform (setViewport width height props) pos))
      with (k (transform props pos)). lra.
  - change (viewportHeight (setViewport width height props)) with height.
    change (y (transform (setViewport width height props) pos))
      with (y (transform props pos)).
    change (k (transform (setViewport width height props) pos))
      with (k (transform props pos)). lra.
Qed.

(** X6. An arrow whose anchor is inside the viewport is drawn as soon as
    its flow has magnitude at least 1 and the zoom is at least 2.1. *)
Theorem arrows_on_screen_are_drawn :
  forall env props headerHeight cell pos,
    lonlat (data props) = Some pos ->
    1 <= absFlow (data props) ->
    2.1 <= getZoom (map props) ->
    0 <= px (project (map props) pos) ->
    px (project (map props) pos) <= viewportWidth props ->
    0 <= py (project (map props) pos) ->
    py (project (map props) pos) <= viewportHeight props ->
    exists out,
      rendered env props headerHeight cell = fragment out /\
      style_transform out = transform props pos /\
      id out = key (data props).
Proof.
  intros env props headerHeight cell pos Hpos Hflow Hzoom Hx0 Hx1 Hy0 Hy1.
  assert (Hk : 0.1 <= k (transform props pos)).
  { rewrite transform_k. lra. }
  eexists. split.
  - apply (rendered_drawn env props headerHeight cell pos Hpos Hflow Hk).
    + change (x (transform props pos)) with (px (project (map props) pos)).
      lra.
    + change (y (transform props pos)) with (py (project (map props) pos)).
      lra.
    + change (x (transform props pos)) with (px (project (map props) pos)).
      lra.
    + change (y (transform props pos)) with (py (project (map props) pos)).
      lra.
  - split; reflexivity.
Qed.

(** ** The memo cell, render after render *)

Lemma same_opt_iff (a b : option Q) :
  JS.is_opt a b = true <-> JS.same_opt a b.
Proof.
  destruct a as [p |], b as [q |]; cbn; try tauto.
  - apply Qeq_bool_iff.
  - split; [discriminate | contradiction].
  - split; [discriminate | contradiction].
Qed.

(** [Object.is] on every dependency, spelled out. *)
Lemma same_deps_iff (a b : Deps) :
  same_deps a b = true <->
  fst (fst a) = fst (fst b) /\
  snd (fst a) == snd (fst b) /\
  JS.same_opt (snd a) (snd b).
Proof.
  destruct a as [[cb1 ci1] nf1], b as [[cb2 ci2] nf2]. cbn.
  rewrite !andb_true_iff, same_opt_iff. unfold JS.is_num.
  rewrite Qeq_bool_iff. split.
  - intros [[Hcb Hci] Hnf]. apply eqb_prop in Hcb. auto.
  - intros (Hcb & Hci & Hnf). subst cb2.
    rewrite eqb_reflx. auto.
Qed.

Lemma same_opt_trans (a b c : option Q) :
  JS.same_opt a b -> JS.same_opt b c -> JS.same_opt a c.
Proof.
  destruct a, b, c; cbn; try tauto. intros H1 H2. rewrite H1. exact H2.
Qed.

Lemma same_opt_sym (a b : option Q) : JS.same_opt a b -> JS.same_opt b a.
Proof.
  destruct a, b; cbn; try tauto. intro H. symmetry. exact H.
Qed.

Lemma same_opt_refl (a : option Q) : JS.same_opt a a.
Proof. destruct a; cbn; [reflexivity | exact I]. Qed.

(** The cell a render with a position leaves is the cell [useMemo]
    leaves. *)
Lemma ExchangeArrow_cell env props headerHeight cell pos :
  lonlat (data props) = Some pos ->
  snd (ExchangeArrow env props headerHeight cell)
  = snd (useMemo cell
           (fun _ => arrowImage env (colorBlindMode props)
                       (co2intensity (data props)) (netFlow (data props)))
           (colorBlindMode props, co2intensity (data props),
            netFlow (data props))).
Proof.
  intro Hpos. unfold ExchangeArrow. rewrite Hpos.
  destruct (useMemo cell _ _) as [img cell1]. cbn [snd].
  repeat match goal with
  | |- context [if ?b then _ else _] => destruct b
  end; reflexivity.
Qed.

(** After [useMemo] the cell is keyed on dependencies that [Object.is]
    identifies with the current ones. *)
Lemma useMemo_keyed cell factory deps :
  exists stored value,
    snd (useMemo cell factory deps) = Some (stored, value) /\
    same_deps stored deps = true.
Proof.
  assert (Hrefl : same_deps deps deps = true).
  { apply same_deps_iff. repeat split; try reflexivity.
    apply same_opt_refl. }
  destruct cell as [[prev value] |]; cbn.
  - destruct (same_deps prev deps) eqn:E; cbn; eauto.
  - eauto.
Qed.

(** X8. A cache hit: after a render of a record with a position, a render
    with the same colorblind flag, the same carbon intensity and the same
    net flow leaves the memo cell as it is, whatever else has changed. *)
Theorem memo_hit_keeps_the_cell :
  forall env props props' headerHeight headerHeight' cell pos pos',
    lonlat (data props) = Some pos ->
    lonlat (data props') = Some pos' ->
    colorBlindMode props' = colorBlindMode props ->
    co2intensity (data props') == co2intensity (data props) ->
    JS.same_opt (netFlow (data props')) (netFlow (data props)) ->
    snd (ExchangeArrow env props' headerHeight'
           (snd (ExchangeArrow env props headerHeight cell)))
    = snd (ExchangeArrow env props headerHeight cell).
Proof.
  intros env props props' headerHeight headerHeight' cell pos pos'
         Hpos Hpos' Hcb Hci Hnf.
  rewrite (ExchangeArrow_cell env props' headerHeight' _ pos' Hpos').
  rewrite (ExchangeArrow_cell env props headerHeight cell pos Hpos).
  destruct (useMemo_keyed cell
              (fun _ => arrowImage env (colorBlindMode props)
                          (co2intensity (data props)) (netFlow (data props)))
              (colorBlindMode props, co2intensity (data props),
               netFlow (data props)))
    as (stored & value & Hcell & Hkey).
  rewrite Hcell. cbn [useMemo].
  assert (Hhit : same_deps stored
                   (colorBlindMode props', co2intensity (data props'),
                    netFlow (data props')) = true).
  { apply same_deps_iff in Hkey. apply same_deps_iff.
    destruct stored as [[cb ci] nf]. cbn in *.
    destruct Hkey as (K1 & K2 & K3). repeat split.
    - congruence.
    - rewrite K2, Hci. reflexivity.
    - apply (same_opt_trans _ _ _ K3). apply same_opt_sym. exact Hnf. }
  rewrite Hhit. reflexivity.
Qed.

(** X9. A cache miss: after a render of a record with a position, a render
    whose colorblind flag, carbon intensity or net flow differs stores
    these new dependencies together with their image. *)
Theorem memo_miss_stores_the_new_image :
  forall env props props' headerHeight headerHeight' cell pos pos',
    lonlat (data props) = Some pos ->
    lonlat (data props') = Some pos' ->
    colorBlindMode props' <> colorBlindMode props \/
    ~ co2intensity (data props') == co2intensity (data props) \/
    ~ JS.same_opt (netFlow (data props')) (netFlow (data props)) ->
    snd (ExchangeArrow env props' headerHeight'
           (snd (ExchangeArrow env props headerHeight cell)))
    = Some ((colorBlindMode props', co2intensity (data props'),
             netFlow (data props')),
            arrowImage env (colorBlindMode props')
              (co2intensity (data props')) (netFlow (data props'))).
Proof.
  intros env props props' headerHeight headerHeight' cell pos pos'
         Hpos Hpos' Hdiff.
  rewrite (ExchangeArrow_cell env props' headerHeight' _ pos' Hpos').
  rewrite (ExchangeArrow_cell env props headerHeight cell pos Hpos).
  destruct (useMemo_keyed cell
              (fun _ => arrowImage env (colorBlindMode props)
                          (co2intensity (data props)) (netFlow (data props)))
              (colorBlindMode props, co2intensity (data props),
               netFlow (data props)))
    as (stored & value & Hcell & Hkey).
  rewrite Hcell. cbn [useMemo].
  assert (Hmiss : same_deps stored
                    (colorBlindMode props', co2intensity (data props'),
                     netFlow (data props')) = false).
  { destruct (same_deps stored
                (colorBlindMode props', co2intensity (data props'),
                 netFlow (data props'))) eqn:E; [| reflexivity].
    exfalso. apply same_deps_iff in Hkey. apply same_deps_iff in E.
    destruct stored as [[cb ci] nf]. cbn in *.
    destruct Hkey as (K1 & K2 & K3). destruct E as (E1 & E2 & E3).
    destruct Hdiff as [H | [H | H]]; apply H.
    - congruence.
    - rewrite <- E2, K2. reflexivity.
    - apply (same_opt_trans _ nf); [apply same_opt_sym |]; assumption. }
  rewrite Hmiss. reflexivity.
Qed.

Lemma cellAfter_app env history1 history2 cell :
  cellAfter env (history1 ++ history2) cell
  = cellAfter env history2 (cellAfter env history1 cell).
Proof.
  revert cell. induction history1 as [| [props headerHeight] rest IH];
    intro cell; cbn; [reflexivity | apply IH].
Qed.



(** * The wheel listener *)

Lemma existsb_eqb_false (h : nat) (listeners : list nat) :
  ~ In h listeners -> existsb (Nat.eqb h) listeners = false.
Proof.
  intro Hfresh. destruct (existsb (Nat.eqb h) listeners) eqn:E;
    [| reflexivity].
  apply existsb_exists in E. destruct E as (h' & Hin & Heq).
  apply Nat.eqb_eq in Heq. subst h'. contradiction.
Qed.

Lemma remove_absent (h : nat) (listeners : list nat) :
  ~ In h listeners -> Wheel.removeEventListener h listeners = listeners.
Proof.
  unfold Wheel.removeEventListener.
  induction listeners as [| h' rest IH]; intro Hfresh; cbn;
    [reflexivity |].
  destruct (Nat.eqb h h') eqn:E.
  - apply Nat.eqb_eq in E. subst h'. exfalso. apply Hfresh. left.
    reflexivity.
  - cbn. rewrite IH; [reflexivity |]. intro Hin. apply Hfresh. right.
    exact Hin.
Qed.

Lemma remove_added (h : nat) (listeners : list nat) :
  ~ In h listeners ->
  Wheel.removeEventListener h (Wheel.addEventListener h listeners)
  = listeners.
Proof.
  intro Hfresh. unfold Wheel.addEventListener.
  rewrite (existsb_eqb_false h listeners Hfresh).
  unfold Wheel.removeEventListener. rewrite filter_app. cbn.
  rewrite Nat.eqb_refl. cbn. rewrite app_nil_r.
  apply (remove_absent h listeners Hfresh).
Qed.

(** X11. The effect releases what it takes: on a document with an
    exchange layer, mounting an arrow makes wheel events on the layer
    cancelled, and unmounting it leaves the listeners of the layer exactly
    as they were before the arrow was mounted. *)
Theorem wheel_listener_is_released :
  forall cancelWheel listeners,
    ~ In cancelWheel listeners ->
    Wheel.wheelPrevented (fst (Wheel.effect cancelWheel (Some listeners)))
    = true /\
    Wheel.mountThenUnmount cancelWheel (Some listeners) = Some listeners.
Proof.
  intros cancelWheel listeners Hfresh. split.
  - cbn. unfold Wheel.addEventListener.
    rewrite (existsb_eqb_false cancelWheel listeners Hfresh).
    destruct listeners; reflexivity.
  - unfold Wheel.mountThenUnmount. cbn.
    rewrite (remove_added cancelWheel listeners Hfresh). reflexivity.
Qed.

(** X13. Arrows do not release each other's listener: with two arrows
    mounted, unmounting the first leaves wheel events cancelled, and
    unmounting the second then leaves the listeners as they were before
    both. *)
Theorem wheel_listeners_are_independent :
  forall first second listeners,
    first <> second ->
    ~ In first listeners ->
    ~ In second listeners ->
    exists cleanupFirst cleanupSecond both,
      snd (Wheel.effect first (Some listeners)) = Some cleanupFirst /\
      Wheel.effect second (fst (Wheel.effect first (Some listeners)))
      = (both, Some cleanupSecond) /\
      Wheel.wheelPrevented (cleanupFirst both) = true /\
      cleanupSecond (cleanupFirst both) = Some listeners.
Proof.
  intros first second listeners Hneq Hfirst Hsecond.
  cbn. do 3 eexists. split; [reflexivity |]. split; [reflexivity |].
  unfold Wheel.addEventListener.
  rewrite (existsb_eqb_false first listeners Hfirst).
  assert (Hfresh : ~ In second (listeners ++ [first])).
  { intro Hin. apply in_app_or in Hin. destruct Hin as [Hin | [Heq | []]].
    - contradiction.
    - apply Hneq. exact Heq. }
  rewrite (existsb_eqb_false second _ Hfresh).
  assert (Hleft : Wheel.removeEventListener first
                    ((listeners ++ [first]) ++ [second])%list
                  = (listeners ++ [second])%list).
  { unfold Wheel.removeEventListener. rewrite !filter_app. cbn.
    rewrite Nat.eqb_refl. cbn.
    assert (E : Nat.eqb first second = false)
      by (apply Nat.eqb_neq; exact Hneq).
    rewrite E. cbn. rewrite app_nil_r.
    fold (Wheel.removeEventListener first listeners).
    rewrite (remove_absent first listeners Hfirst). reflexivity. }
  cbn [option_map]. rewrite Hleft. split.
  - destruct listeners; reflexivity.
  - unfold Wheel.removeEventListener. rewrite filter_app. cbn.
    rewrite Nat.eqb_refl. cbn. rewrite app_nil_r.
    fold (Wheel.removeEventListener second listeners).
    rewrite (remove_absent second listeners Hsecond). reflexivity.
Qed.

(** * The badge *)

(** X14. The class name of a badge tells its type: two badges have the
    same class name exactly when they have the same type, a badge without
    type counting as one of type [default]. *)
Theorem badge_class_tells_the_type :
  forall p q,
    Badge.className (Badge.Badge p) = Badge.className (Badge.Badge q) <->
    JS.nullish (Badge.type p) Badge.default
    = JS.nullish (Badge.type q) Badge.default.
Proof.
  intros [textP typeP iconP] [textQ typeQ iconQ]. cbn. split.
  - intro H.
    assert (E : String.eqb
                  (Badge.className
                     (Badge.Badge
                        {| Badge.pillText := ""; Badge.type := typeP;
                           Badge.icon := None |}))
                  (Badge.className
                     (Badge.Badge
                        {| Badge.pillText := ""; Badge.type := typeQ;
                           Badge.icon := None |})) = true).
    { apply String.eqb_eq. exact H. }
    destruct typeP as [[| |] |], typeQ as [[| |] |];
      try reflexivity; vm_compute in E; discriminate.
  - intro H.
    destruct typeP as [[| |] |], typeQ as [[| |] |];
      try reflexivity; discriminate.
Qed.

(** * The colorblind toggle *)

(** X15. Clicks on the rendered button toggle the mode and are all
    tracked: after [n] clicks, the button rendered again before each, the
    mode is the initial one when [n] is even and the opposite one when [n]
    is odd, and [n] events [Colorblind Mode Toggled] were added to the
    tracked events, and nothing else. *)
Theorem clicks_toggle_by_parity :
  forall n s,
    ColorblindToggle.colorblindModeAtom (ColorblindToggle.clicks n s)
    = (if Nat.even n
       then ColorblindToggle.colorblindModeAtom s
       else negb (ColorblindToggle.colorblindModeAtom s)) /\
    ColorblindToggle.tracked (ColorblindToggle.clicks n s)
    = (ColorblindToggle.tracked s
       ++ repeat "Colorblind Mode Toggled" n)%list.
Proof.
  induction n as [| m IH]; intro s.
  - cbn. rewrite app_nil_r. split; reflexivity.
  - destruct (IH (ColorblindToggle.click s)) as [Hmode Htracked].
    change (ColorblindToggle.clicks (S m) s)
      with (ColorblindToggle.clicks m (ColorblindToggle.click s)).
    rewrite Hmode, Htracked. split.
    + rewrite Nat.even_succ, <- Nat.negb_even.
      cbn. destruct (Nat.even m); cbn;
        [reflexivity | apply negb_involutive].
    + cbn. rewrite <- app_assoc. reflexivity.
Qed.

(** * The browser launch handler of the Cypress configuration *)

Lemma get_assign_same (key : string) (v : Cypress.Pref) (o : Cypress.Obj) :
  Cypress.get key (Cypress.assign key v o) = Some v.
Proof.
  induction o as [| [k w] rest IH]; cbn.
  - rewrite String.eqb_refl. reflexivity.
  - destruct (String.eqb k key) eqn:E; cbn; rewrite E;
      [reflexivity | exact IH].
Qed.

Lemma get_assign_other (key other : string) (v : Cypress.Pref)
    (o : Cypress.Obj) :
  other <> key ->
  Cypress.get other (Cypress.assign key v o) = Cypress.get other o.
Proof.
  intro Hneq. induction o as [| [k w] rest IH]; cbn.
  - assert (E : String.eqb key other = false).
    { apply String.eqb_neq. intro H. apply Hneq. symmetry. exact H. }
    rewrite E. reflexivity.
  - destruct (String.eqb k key) eqn:E; cbn.
    + apply String.eqb_eq in E. subst k.
      assert (E' : String.eqb key other = false).
      { apply String.eqb_neq. intro H. apply Hneq. symmetry. exact H. }
      rewrite E'. reflexivity.
    + destruct (String.eqb k other); [reflexivity | exact IH].
Qed.

Lemma assign_twice (key : string) (v : Cypress.Pref) (o : Cypress.Obj) :
  Cypress.assign key v (Cypress.assign key v o) = Cypress.assign key v o.
Proof.
  induction o as [| [k w] rest IH]; cbn.
  - rewrite String.eqb_refl. reflexivity.
  - destruct (String.eqb k key) eqn:E; cbn; rewrite E;
      [reflexivity | rewrite IH; reflexivity].
Qed.

(** The names of the properties of an object, in order. *)
Lemma assign_keys (key : string) (v : Cypress.Pref) (o : Cypress.Obj) :
  List.map fst (Cypress.assign key v o)
  = if existsb (fun k => String.eqb k key) (List.map fst o)
    then List.map fst o
    else (List.map fst o ++ [key])%list.
Proof.
  induction o as [| [k w] rest IH]; cbn; [reflexivity |].
  destruct (String.eqb k key) eqn:E; cbn; [reflexivity |].
  rewrite IH.
  destruct (existsb (fun k0 => String.eqb k0 key) (List.map fst rest));
    reflexivity.
Qed.

(** X18. When the handler returns launch options, their [intl]
    preference holds the two language lists [en-US,en]; every other
    preference, the arguments and the extensions are those it was given,
    and the preferences keep their names and order, [intl] coming last if
    it was not there. *)
Theorem launch_options_set_the_languages :
  forall browser launchOptions modified,
    Cypress.beforeBrowserLaunch browser launchOptions = Some modified ->
    Cypress.get "intl" (Cypress.preferences_default modified)
    = Some (Cypress.pobj [("accept_languages", "en-US,en");
                          ("selected_languages", "en-US,en")]) /\
    (forall other,
        other <> "intl" ->
        Cypress.get other (Cypress.preferences_default modified)
        = Cypress.get other (Cypress.preferences_default launchOptions)) /\
    Cypress.args modified = Cypress.args launchOptions /\
    Cypress.extensions modified = Cypress.extensions launchOptions /\
    List.map fst (Cypress.preferences_default modified)
    = (if existsb (fun k => String.eqb k "intl")
            (List.map fst (Cypress.preferences_default launchOptions))
       then List.map fst (Cypress.preferences_default launchOptions)
       else (List.map fst (Cypress.preferences_default launchOptions)
             ++ ["intl"])%list).
Proof.
  intros browser launchOptions modified H.
  unfold Cypress.beforeBrowserLaunch in H.
  destruct (String.eqb (Cypress.family browser) "chromium"
            && negb (String.eqb (Cypress.name browser) "electron"));
    [| discriminate].
  injection H as <-. cbn [Cypress.preferences_default Cypress.args
                            Cypress.extensions].
  split; [apply get_assign_same |].
  split; [intros other Hother; apply get_assign_other; exact Hother |].
  split; [reflexivity |]. split; [reflexivity |].
  apply assign_keys.
Qed.

(** X19. Running the handler again changes nothing: the options a
    browser is launched with are a fixed point of the handler. *)
Theorem launch_handler_is_idempotent :
  forall browser launchOptions,
    Cypress.launchedWith browser
      (Cypress.launchedWith browser launchOptions)
    = Cypress.launchedWith browser launchOptions.
Proof.
  intros browser launchOptions.
  unfold Cypress.launchedWith, Cypress.beforeBrowserLaunch.
  destruct (String.eqb (Cypress.family browser) "chromium"
            && negb (String.eqb (Cypress.name browser) "electron")) eqn:E.
  - cbn [Cypress.preferences_default Cypress.args Cypress.extensions].
    rewrite assign_twice. reflexivity.
  - reflexivity.
Qed.

(** * Instances of the further properties *)

Lemma visibility_depends_on_geometry_only_witness :
  let props := scenarioProps (Some 500) "DE->FR" true in
  let props' :=
    sceneProps {| co2intensity := 300; lonlat := Some (2, 46);
                  netFlow := Some (- 500); rotation := 90;
                  key := "FR->ES" |}
      5 500 400 1000 800 false in
  absFlow (data props) == absFlow (data props') /\
  (rendered sampleImports props 0 None = null <->
   rendered sampleImports props' 64 None = null).
Proof.
  cbv zeta.
  set (props := scenarioProps (Some 500) "DE->FR" true).
  set (props' :=
         sceneProps {| co2intensity := 300; lonlat := Some (2, 46);
                       netFlow := Some (- 500); rotation := 90;
                       key := "FR->ES" |}
           5 500 400 1000 800 false).
  assert (Hflow : absFlow (data props) == absFlow (data props'))
    by reflexivity.
  split; [exact Hflow |].
  exact (visibility_depends_on_geometry_only sampleImports sampleImports
           props props' 0 64 None None (10, 50) (2, 46) eq_refl eq_refl
           Hflow (Qeq_refl _) (Qeq_refl _) (Qeq_refl _) (Qeq_refl _)
           (Qeq_refl _)).
Defined.

Lemma zooming_in_keeps_arrows_witness :
  let props := sceneProps (scenarioData (Some 500) "DE->FR")
                 3 500 400 1000 800 false in
  getZoom (map props) <= 5 /\
  exists out,
    rendered sampleImports props 0 None = fragment out /\
    exists out',
      rendered sampleImports (setZoom 5 props) 0 None = fragment out' /\
      x (style_transform out') = x (style_transform out) /\
      y (style_transform out') = y (style_transform out) /\
      r (style_transform out') = r (style_transform out) /\
      k (style_transform out) <= k (style_transform out').
Proof.
  cbv zeta.
  assert (Hzoom :
    getZoom (map (sceneProps (scenarioData (Some 500) "DE->FR")
                    3 500 400 1000 800 false)) <= 5)
    by (vm_compute; discriminate).
  split; [exact Hzoom |].
  eexists. split; [reflexivity |].
  exact (zooming_in_keeps_arrows sampleImports
           (sceneProps (scenarioData (Some 500) "DE->FR")
              3 500 400 1000 800 false)
           0 None None 5 _ Hzoom eq_refl).
Defined.

Lemma larger_viewport_keeps_arrows_witness :
  let props := scenarioProps (Some 500) "DE->FR" false in
  viewportWidth props <= 1200 /\
  viewportHeight props <= 900 /\
  exists out,
    rendered sampleImports props 0 None = fragment out /\
    rendered sampleImports (setViewport 1200 900 props) 0 None
    = fragment out.
Proof.
  cbv zeta.
  assert (Hw : viewportWidth (scenarioProps (Some 500) "DE->FR" false)
               <= 1200) by (vm_compute; discriminate).
  assert (Hh : viewportHeight (scenarioProps (Some 500) "DE->FR" false)
               <= 900) by (vm_compute; discriminate).
  split; [exact Hw |]. split; [exact Hh |].
  eexists. split; [reflexivity |].
  exact (larger_viewport_keeps_arrows sampleImports
           (scenarioProps (Some 500) "DE->FR" false) 0 None 1200 900 _
           Hw Hh eq_refl).
Defined.

Lemma arrows_on_screen_are_drawn_witness :
  let props := scenarioProps (Some 500) "DE->FR" false in
  1 <= absFlow (data props) /\
  2.1 <= getZoom (map props) /\
  exists out,
    rendered sampleImports props 0 None = fragment out /\
    style_transform out = transform props (10, 50) /\
    id out = key (data props).
Proof.
  cbv zeta.
  set (props := scenarioProps (Some 500) "DE->FR" false).
  assert (H1 : 1 <= absFlow (data props)) by (vm_compute; discriminate).
  assert (H2 : 2.1 <= getZoom (map props)) by (vm_compute; discriminate).
  assert (H3 : 0 <= px (project (map props) (10, 50)))
    by (vm_compute; discriminate).
  assert (H4 : px (project (map props) (10, 50)) <= viewportWidth props)
    by (vm_compute; discriminate).
  assert (H5 : 0 <= py (project (map props) (10, 50)))
    by (vm_compute; discriminate).
  assert (H6 : py (project (map props) (10, 50)) <= viewportHeight props)
    by (vm_compute; discriminate).
  split; [exact H1 |]. split; [exact H2 |].
  exact (arrows_on_screen_are_drawn sampleImports props 0 None (10, 50)
           eq_refl H1 H2 H3 H4 H5 H6).
Defined.

Lemma memo_hit_keeps_the_cell_witness :
  let props := scenarioProps (Some 500) "DE->FR" true in
  let props' := sceneProps (scenarioData (Some 500) "DE->PL")
                  7 0 0 100 100 true in
  snd (ExchangeArrow sampleImports props' 64
         (snd (ExchangeArrow sampleImports props 0 None)))
  = snd (ExchangeArrow sampleImports props 0 None).
Proof.
  cbv zeta.
  exact (memo_hit_keeps_the_cell sampleImports
           (scenarioProps (Some 500) "DE->FR" true)
           (sceneProps (scenarioData (Some 500) "DE->PL") 7 0 0 100 100
              true)
           0 64 None (10, 50) (10, 50) eq_refl eq_refl eq_refl
           (Qeq_refl _) (Qeq_refl _)).
Defined.

Lemma memo_miss_stores_the_new_image_witness :
  let props := scenarioProps (Some 500) "DE->FR" true in
  let props' := scenarioProps (Some 500) "DE->FR" false in
  colorBlindMode props' <> colorBlindMode props /\
  snd (ExchangeArrow sampleImports props' 0
         (snd (ExchangeArrow sampleImports props 0 None)))
  = Some ((false, 120, Some 500), "/images/arrows/arrow-80-animated-1").
Proof.
  cbv zeta.
  assert (H : colorBlindMode (scenarioProps (Some 500) "DE->FR" false)
              <> colorBlindMode (scenarioProps (Some 500) "DE->FR" true))
    by (cbn; discriminate).
  split; [exact H |].
  exact (memo_miss_stores_the_new_image sampleImports
           (scenarioProps (Some 500) "DE->FR" true)
           (scenarioProps (Some 500) "DE->FR" false)
           0 0 None (10, 50) (10, 50) eq_refl eq_refl (or_introl H)).
Defined.

Lemma wheel_listener_is_released_witness :
  ~ In 3%nat [1%nat; 2%nat] /\
  Wheel.wheelPrevented (fst (Wheel.effect 3 (Some [1%nat; 2%nat]))) = true /\
  Wheel.mountThenUnmount 3 (Some [1%nat; 2%nat]) = Some [1%nat; 2%nat].
Proof.
  assert (H : ~ In 3%nat [1%nat; 2%nat]).
  { intros [H | [H | []]]; discriminate. }
  split; [exact H |].
  exact (wheel_listener_is_released 3 [1%nat; 2%nat] H).
Defined.

Lemma wheel_listeners_are_independent_witness :
  3%nat <> 4%nat /\
  exists cleanupFirst cleanupSecond both,
    snd (Wheel.effect 3 (Some [1%nat; 2%nat])) = Some cleanupFirst /\
    Wheel.effect 4 (fst (Wheel.effect 3 (Some [1%nat; 2%nat])))
    = (both, Some cleanupSecond) /\
    Wheel.wheelPrevented (cleanupFirst both) = true /\
    cleanupSecond (cleanupFirst both) = Some [1%nat; 2%nat].
Proof.
  assert (Hneq : 3%nat <> 4%nat) by discriminate.
  assert (H3 : ~ In 3%nat [1%nat; 2%nat]).
  { intros [H | [H | []]]; discriminate. }
  assert (H4 : ~ In 4%nat [1%nat; 2%nat]).
  { intros [H | [H | []]]; discriminate. }
  split; [exact Hneq |].
  exact (wheel_listeners_are_independent 3 4 [1%nat; 2%nat] Hneq H3 H4).
Defined.

Lemma launch_options_set_the_languages_witness :
  let chrome := {| Cypress.family := "chromium"; Cypress.name := "chrome" |} in
  let given :=
    {| Cypress.extensions := [];
       Cypress.args := ["--disable-gpu"];
       Cypress.preferences_default :=
         [("devtools", Cypress.pstr "undocked")] |} in
  exists modified,
    Cypress.beforeBrowserLaunch chrome given = Some modified /\
    Cypress.get "intl" (Cypress.preferences_default modified)
    = Some (Cypress.pobj [("accept_languages", "en-US,en");
                          ("selected_languages", "en-US,en")]) /\
    Cypress.get "devtools" (Cypress.preferences_default modified)
    = Some (Cypress.pstr "undocked").
Proof.
  cbv zeta. eexists. split; [reflexivity |]. split.
  - exact (proj1 (launch_options_set_the_languages
                    {| Cypress.family := "chromium";
                       Cypress.name := "chrome" |}
                    {| Cypress.extensions := [];
                       Cypress.args := ["--disable-gpu"];
                       Cypress.preferences_default :=
                         [("devtools", Cypress.pstr "undocked")] |}
                    _ eq_refl)).
  - reflexivity.
Defined.

(** * The component on doubles *)

Import Floats.

(** ** The order of the doubles *)

(** [<] and [<=] on doubles are the lexicographic order on the keys of
    [IEEE.place]; a comparison with NaN has no key and is false. *)
Lemma lexcmp_spec (a b : Z * Z * Z) :
  match IEEE.lexcmp a b with
  | Lt => (fst (fst a) < fst (fst b)
           \/ fst (fst a) = fst (fst b)
              /\ (snd (fst a) < snd (fst b)
                  \/ snd (fst a) = snd (fst b) /\ snd a < snd b))%Z
  | Eq => fst (fst a) = fst (fst b) /\ snd (fst a) = snd (fst b)
          /\ snd a = snd b
  | Gt => (fst (fst b) < fst (fst a)
           \/ fst (fst a) = fst (fst b)
              /\ (snd (fst b) < snd (fst a)
                  \/ snd (fst a) = snd (fst b) /\ snd b < snd a))%Z
  end.
Proof.
  destruct a as [[a1 a2] a3], b as [[b1 b2] b3]. cbn.
  destruct (Z.compare_spec a1 b1); [| lia | lia].
  destruct (Z.compare_spec a2 b2); [| lia | lia].
  destruct (Z.compare_spec a3 b3); [auto | lia | lia].
Qed.

Lemma SFcompare_rank (f1 f2 : spec_float) :
  SFcompare f1 f2
  = match IEEE.rank f1, IEEE.rank f2 with
    | Some a, Some b => Some (IEEE.lexcmp a b)
    | _, _ => None
    end.
Proof.
  destruct f1 as [s1 | s1 | | s1 m1 e1], f2 as [s2 | s2 | | s2 m2 e2];
    try destruct s1; try destruct s2; try reflexivity.
  cbn. rewrite Z.compare_opp, (Z.compare_antisym e1 e2).
  destruct (e1 ?= e2)%Z; reflexivity.
Qed.

Lemma ltb_place (a b : float) :
  PrimFloat.ltb a b
  = match IEEE.place a, IEEE.place b with
    | Some p, Some q =>
        match IEEE.lexcmp p q with Lt => true | _ => false end
    | _, _ => false
    end.
Proof.
  rewrite ltb_spec. unfold SFltb, IEEE.place. rewrite SFcompare_rank.
  destruct (IEEE.rank (Prim2SF a)), (IEEE.rank (Prim2SF b)); reflexivity.
Qed.

Lemma leb_place (a b : float) :
  PrimFloat.leb a b
  = match IEEE.place a, IEEE.place b with
    | Some p, Some q =>
        match IEEE.lexcmp p q with Gt => false | _ => true end
    | _, _ => false
    end.
Proof.
  rewrite leb_spec. unfold SFleb, IEEE.place. rewrite SFcompare_rank.
  destruct (IEEE.rank (Prim2SF a)), (IEEE.rank (Prim2SF b)); reflexivity.
Qed.

(** Decides a goal about the order of doubles from comparisons in the
    context. *)
Ltac float_order :=
  rewrite ?ltb_place, ?leb_place in *;
  repeat match goal with
  | H : context [IEEE.place ?a] |- _ =>
      destruct (IEEE.place a) as [[[? ?] ?] |]
  | |- context [IEEE.place ?a] =>
      destruct (IEEE.place a) as [[[? ?] ?] |]
  end;
  repeat match goal with
  | H : context [IEEE.lexcmp ?p ?q] |- _ =>
      pose proof (lexcmp_spec p q); destruct (IEEE.lexcmp p q)
  | |- context [IEEE.lexcmp ?p ?q] =>
      pose proof (lexcmp_spec p q); destruct (IEEE.lexcmp p q)
  end;
  cbn [fst snd] in *;
  solve [congruence | exfalso; lia | lia].

(** No double is at once at most [b] and at least some [z] above [b]. *)
Lemma leb_ltb_leb_cycle (u b z : float) :
  PrimFloat.leb u b = true -> PrimFloat.ltb b z = true ->
  PrimFloat.leb z u = true -> False.
Proof. intros H1 H2 H3. float_order. Qed.

Lemma leb_defined (a b : float) :
  PrimFloat.leb a b = true -> IEEE.place a <> None /\ IEEE.place b <> None.
Proof. intro H. split; float_order. Qed.

Lemma leb_refl (a : float) : IEEE.place a <> None -> PrimFloat.leb a a = true.
Proof. intro H. float_order. Qed.

Lemma not_ltb_leb (a b : float) :
  IEEE.place a <> None -> IEEE.place b <> None ->
  PrimFloat.ltb a b = false -> PrimFloat.leb b a = true.
Proof. intros Ha Hb H. float_order. Qed.

(** Adding [+0] changes no double but [-0]; the absolute value and the
    sign test [0 < _] under a change of sign. *)
Lemma place_zero : IEEE.place 0%float = Some (0, 0, 0)%Z.
Proof. reflexivity. Qed.

Lemma add_zero_r (a : float) :
  Prim2SF a <> S754_zero true -> PrimFloat.add a 0%float = a.
Proof.
  intro H. apply Prim2SF_inj. rewrite add_spec.
  change (Prim2SF 0%float) with (S754_zero false).
  destruct (Prim2SF a) as [s | s | | s m e]; try reflexivity.
  destruct s; [contradiction | reflexivity].
Qed.

Lemma abs_opp (a : float) : PrimFloat.abs (PrimFloat.opp a) = PrimFloat.abs a.
Proof.
  apply Prim2SF_inj. rewrite !abs_spec, opp_spec.
  destruct (Prim2SF a); reflexivity.
Qed.

Lemma place_opp (a : float) :
  IEEE.place (PrimFloat.opp a)
  = match IEEE.place a with
    | Some (c, e, m) => Some (- c, - e, - m)%Z
    | None => None
    end.
Proof.
  unfold IEEE.place. rewrite opp_spec.
  destruct (Prim2SF a) as [s | s | | s m e]; try destruct s; cbn;
    rewrite ?Z.opp_involutive; reflexivity.
Qed.

Lemma positive_opp (a : float) :
  PrimFloat.ltb 0%float a = true ->
  PrimFloat.ltb 0%float (PrimFloat.opp a) = false.
Proof.
  intro H. rewrite ltb_place in *. rewrite place_opp. rewrite place_zero in *.
  destruct (IEEE.place a) as [[[c e] m] |]; [| reflexivity].
  pose proof (lexcmp_spec (0, 0, 0)%Z (c, e, m)).
  pose proof (lexcmp_spec (0, 0, 0)%Z (- c, - e, - m)%Z).
  destruct (IEEE.lexcmp (0, 0, 0)%Z (c, e, m)); try discriminate.
  destruct (IEEE.lexcmp (0, 0, 0)%Z (- c, - e, - m)%Z); try reflexivity.
  cbn [fst snd] in *. exfalso. lia.
Qed.

(** ** Rotation, culling and the count of hooks *)

Section Doubles.

#[local] Set Warnings "-inexact-float".
Local Open Scope float_scope.

Lemma add_zero_then_180 (a : float) : a + 0 + 180 = a + 180.
Proof.
  destruct (Prim2SF a) as [s | s | | s m e] eqn:E.
  2-4: rewrite add_zero_r; [reflexivity | rewrite E; discriminate].
  destruct s.
  - apply Prim2SF_inj. rewrite !add_spec, E. reflexivity.
  - rewrite add_zero_r; [reflexivity | rewrite E; discriminate].
Qed.

(** A call that is allowed to reach the hooks returns what the six tests
    decide. *)
Lemma outcome_with_position env props headerHeight current pos :
  IEEE.lonlat (IEEE.data props) = Some pos ->
  current <> Some IEEE.stopped ->
  IEEE.outcome env props headerHeight current =
    IEEE.returned
      (let t := IEEE.transform props pos in
       if IEEE.absFlow (IEEE.data props) <? 1 then IEEE.null
       else if IEEE.k t <? 0.1 then IEEE.null
       else if IEEE.leftOfViewport t then IEEE.null
       else if IEEE.aboveViewport t then IEEE.null
       else if IEEE.rightOfViewport t (IEEE.viewportWidth props)
       then IEEE.null
       else if IEEE.belowViewport t (IEEE.viewportHeight props)
       then IEEE.null
       else IEEE.fragment
              {| IEEE.id := IEEE.key (IEEE.data props);
                 IEEE.style_transform := t;
                 IEEE.imageSource :=
                   fst (IEEE.useMemo current
                          (fun _ =>
                             IEEE.arrowImage env (IEEE.colorBlindMode props)
                               (IEEE.co2intensity (IEEE.data props))
                               (IEEE.netFlow (IEEE.data props)))
                          (IEEE.colorBlindMode props,
                           IEEE.co2intensity (IEEE.data props),
                           IEEE.netFlow (IEEE.data props)));
                 IEEE.tooltipClassName :=
                   IEEE.tooltipClass t headerHeight |}).
Proof.
  intros Hpos Hcurrent. unfold IEEE.outcome, IEEE.ExchangeArrow.
  rewrite Hpos.
  destruct current as [[| deps value] |]; [contradiction | |];
    destruct (IEEE.useMemo _ _ _) as [image cells]; reflexivity.
Qed.

Lemma outcome_without_position env props headerHeight current :
  IEEE.lonlat (IEEE.data props) = None ->
  IEEE.outcome env props headerHeight current = IEEE.returned IEEE.null.
Proof.
  intro Hpos. unfold IEEE.outcome, IEEE.ExchangeArrow. rewrite Hpos.
  reflexivity.
Qed.

(** C5. For a record that passes the position, magnitude and scale gates
    (and whose render is allowed to reach the hooks), nothing is rendered
    exactly when one of the four half-plane tests holds, each computed on
    doubles as the component computes it; when the viewport has
    non-negative width and height and the corners of the box are in order,
    this is exactly when the box around the anchor has no point in the
    viewport. *)
Theorem culled_iff_box_outside_viewport :
  forall env props headerHeight current pos,
    IEEE.lonlat (IEEE.data props) = Some pos ->
    current <> Some IEEE.stopped ->
    (IEEE.absFlow (IEEE.data props) <? 1) = false ->
    (IEEE.k (IEEE.transform props pos) <? 0.1) = false ->
    let t := IEEE.transform props pos in
    let width := IEEE.viewportWidth props in
    let height := IEEE.viewportHeight props in
    exists element,
      IEEE.outcome env props headerHeight current = IEEE.returned element /\
      (element = IEEE.null <->
       (IEEE.x t + 100 * IEEE.k t <? 0) = true \/
       (IEEE.y t + 100 * IEEE.k t <? 0) = true \/
       (width <? IEEE.x t - 100 * IEEE.k t) = true \/
       (height <? IEEE.y t - 100 * IEEE.k t) = true) /\
      (IEEE.boxIsRectangle t ->
       (0 <=? width) = true -> (0 <=? height) = true ->
       (element = IEEE.null <-> ~ IEEE.boxMeetsViewport t width height)).
Proof.
  intros env props headerHeight current pos Hpos Hcurrent Hflow Hk
         t width height.
  rewrite (outcome_with_position env props headerHeight current pos
             Hpos Hcurrent).
  cbv zeta. fold t. fold t in Hk. rewrite Hflow, Hk.
  unfold IEEE.leftOfViewport, IEEE.aboveViewport, IEEE.rightOfViewport,
    IEEE.belowViewport. fold width height.
  set (image := fst (IEEE.useMemo _ _ _)).
  set (left := IEEE.x t + 100 * IEEE.k t <? 0).
  set (above := IEEE.y t + 100 * IEEE.k t <? 0).
  set (right := width <? IEEE.x t - 100 * IEEE.k t).
  set (below := height <? IEEE.y t - 100 * IEEE.k t).
  eexists. split; [reflexivity |].
  assert (Htests :
    (if left then IEEE.null
     else if above then IEEE.null
     else if right then IEEE.null
     else if below then IEEE.null
     else IEEE.fragment
            {| IEEE.id := IEEE.key (IEEE.data props);
               IEEE.style_transform := t;
               IEEE.imageSource := image;
               IEEE.tooltipClassName := IEEE.tooltipClass t headerHeight |})
    = IEEE.null <->
    left = true \/ above = true \/ right = true \/ below = true).
  { destruct left, above, right, below; cbn; split; intro H;
      try reflexivity; try discriminate; auto;
      destruct H as [H | [H | [H | H]]]; discriminate. }
  split; [exact Htests |].
  intros [Hx Hy] Hw Hh. rewrite Htests. subst left above right below.
  split.
  - intros Hout (u & v & U1 & U2 & V1 & V2 & U3 & U4 & V3 & V4).
    destruct Hout as [H | [H | [H | H]]].
    + exact (leb_ltb_leb_cycle _ _ _ U2 H U3).
    + exact (leb_ltb_leb_cycle _ _ _ V2 H V3).
    + exact (leb_ltb_leb_cycle _ _ _ U4 H U1).
    + exact (leb_ltb_leb_cycle _ _ _ V4 H V1).
  - intro Hdisjoint.
    destruct (leb_defined _ _ Hx) as [Dlx Dhx].
    destruct (leb_defined _ _ Hy) as [Dly Dhy].
    destruct (leb_defined _ _ Hw) as [D0 Dw].
    destruct (leb_defined _ _ Hh) as [_ Dh].
    destruct (IEEE.x t + 100 * IEEE.k t <? 0) eqn:L; [auto |].
    destruct (IEEE.y t + 100 * IEEE.k t <? 0) eqn:A; [auto |].
    destruct (width <? IEEE.x t - 100 * IEEE.k t) eqn:Rt; [auto |].
    destruct (height <? IEEE.y t - 100 * IEEE.k t) eqn:B; [auto |].
    exfalso. apply Hdisjoint.
    pose proof (not_ltb_leb _ _ Dhx D0 L) as L'.
    pose proof (not_ltb_leb _ _ Dhy D0 A) as A'.
    pose proof (not_ltb_leb _ _ Dw Dlx Rt) as R'.
    pose proof (not_ltb_leb _ _ Dh Dly B) as B'.
    pose proof (leb_refl _ D0) as Z0.
    exists (if IEEE.x t - 100 * IEEE.k t <? 0
            then 0 else IEEE.x t - 100 * IEEE.k t).
    exists (if IEEE.y t - 100 * IEEE.k t <? 0
            then 0 else IEEE.y t - 100 * IEEE.k t).
    destruct (IEEE.x t - 100 * IEEE.k t <? 0) eqn:Ex;
      destruct (IEEE.y t - 100 * IEEE.k t <? 0) eqn:Ey;
      repeat split;
      try assumption;
      try (apply leb_refl; assumption);
      try (apply not_ltb_leb; assumption);
      try (clear - Ex; float_order);
      try (clear - Ey; float_order).
Qed.

(** What is drawn carries the transform of the record's position, and
    the six tests have failed. *)
Lemma outcome_fragment_inv env props headerHeight current out :
  IEEE.outcome env props headerHeight current
  = IEEE.returned (IEEE.fragment out) ->
  exists pos,
    IEEE.lonlat (IEEE.data props) = Some pos /\
    current <> Some IEEE.stopped /\
    IEEE.style_transform out = IEEE.transform props pos /\
    (IEEE.absFlow (IEEE.data props) <? 1) = false /\
    (IEEE.k (IEEE.transform props pos) <? 0.1) = false /\
    IEEE.leftOfViewport (IEEE.transform props pos) = false /\
    IEEE.aboveViewport (IEEE.transform props pos) = false /\
    IEEE.rightOfViewport (IEEE.transform props pos)
      (IEEE.viewportWidth props) = false /\
    IEEE.belowViewport (IEEE.transform props pos)
      (IEEE.viewportHeight props) = false.
Proof.
  intro H.
  destruct (IEEE.lonlat (IEEE.data props)) as [pos |] eqn:Hpos.
  - assert (Hcurrent : current <> Some IEEE.stopped).
    { intros ->. unfold IEEE.outcome, IEEE.ExchangeArrow in H.
      rewrite Hpos in H. discriminate. }
    rewrite (outcome_with_position env props headerHeight current pos
               Hpos Hcurrent) in H.
    cbv zeta in H. exists pos.
    destruct (IEEE.absFlow (IEEE.data props) <? 1); [discriminate |].
    destruct (IEEE.k (IEEE.transform props pos) <? 0.1); [discriminate |].
    destruct (IEEE.leftOfViewport (IEEE.transform props pos));
      [discriminate |].
    destruct (IEEE.aboveViewport (IEEE.transform props pos));
      [discriminate |].
    destruct (IEEE.rightOfViewport (IEEE.transform props pos)
                (IEEE.viewportWidth props)); [discriminate |].
    destruct (IEEE.belowViewport (IEEE.transform props pos)
                (IEEE.viewportHeight props)); [discriminate |].
    injection H as <-. cbn. repeat split; auto.
  - rewrite (outcome_without_position env props headerHeight current Hpos)
      in H.
    discriminate.
Qed.

(** The six tests all fail: the fragment is drawn. *)
Lemma outcome_drawn env props headerHeight current pos :
  IEEE.lonlat (IEEE.data props) = Some pos ->
  current <> Some IEEE.stopped ->
  (IEEE.absFlow (IEEE.data props) <? 1) = false ->
  (IEEE.k (IEEE.transform props pos) <? 0.1) = false ->
  IEEE.leftOfViewport (IEEE.transform props pos) = false ->
  IEEE.aboveViewport (IEEE.transform props pos) = false ->
  IEEE.rightOfViewport (IEEE.transform props pos)
    (IEEE.viewportWidth props) = false ->
  IEEE.belowViewport (IEEE.transform props pos)
    (IEEE.viewportHeight props) = false ->
  exists out,
    IEEE.outcome env props headerHeight current
    = IEEE.returned (IEEE.fragment out) /\
    IEEE.style_transform out = IEEE.transform props pos /\
    IEEE.id out = IEEE.key (IEEE.data props).
Proof.
  intros Hpos Hcurrent G1 G2 G3 G4 G5 G6.
  rewrite (outcome_with_position env props headerHeight current pos
             Hpos Hcurrent).
  cbv zeta. rewrite G1, G2, G3, G4, G5, G6.
  eexists. split; [reflexivity |]. split; reflexivity.
Qed.

(** Reversing a flow changes none of the six tests. *)
Lemma outcome_reversed_flow env props headerHeight current f pos :
  IEEE.lonlat (IEEE.data props) = Some pos ->
  current <> Some IEEE.stopped ->
  forall out,
    IEEE.outcome env (IEEE.setNetFlow (IEEE.js_number f) props)
      headerHeight current = IEEE.returned (IEEE.fragment out) ->
    exists out',
      IEEE.outcome env (IEEE.setNetFlow (IEEE.js_number (- f)) props)
        headerHeight current = IEEE.returned (IEEE.fragment out') /\
      IEEE.style_transform out'
      = IEEE.transform (IEEE.setNetFlow (IEEE.js_number (- f)) props) pos.
Proof.
  intros Hpos Hcurrent out Hout.
  destruct (outcome_fragment_inv _ _ _ _ _ Hout)
    as (pos' & Hpos' & _ & _ & G1 & G2 & G3 & G4 & G5 & G6).
  cbn in Hpos'. rewrite Hpos in Hpos'. injection Hpos' as <-.
  destruct (outcome_drawn env (IEEE.setNetFlow (IEEE.js_number (- f)) props)
              headerHeight current pos Hpos Hcurrent)
    as (out' & Hout' & Ht & _); try assumption.
  - unfold IEEE.absFlow in *. cbn in *. rewrite abs_opp. exact G1.
  - exists out'. split; assumption.
Qed.

(** C4, as amended.  An arrow that passes the six tests is drawn, and the
    rotation of whatever is drawn is the double [rotation + 180] when the
    net flow is positive and the double [rotation + 0] otherwise, which is
    the rotation itself unless that is [-0].  Two records that differ only
    in the sign of a non-zero net flow are drawn or dropped together, and
    the rotation of the one with the positive flow is the double sum of
    the other's rotation and 180. *)
Theorem rotation_of_drawn_arrows :
  forall env props headerHeight current pos,
    IEEE.lonlat (IEEE.data props) = Some pos ->
    current <> Some IEEE.stopped ->
    let heading := IEEE.rotation (IEEE.data props) in
    let t := IEEE.transform props pos in
    ((IEEE.absFlow (IEEE.data props) <? 1) = false ->
     (IEEE.k t <? 0.1) = false ->
     IEEE.leftOfViewport t = false ->
     IEEE.aboveViewport t = false ->
     IEEE.rightOfViewport t (IEEE.viewportWidth props) = false ->
     IEEE.belowViewport t (IEEE.viewportHeight props) = false ->
     exists out,
       IEEE.outcome env props headerHeight current
       = IEEE.returned (IEEE.fragment out) /\
       IEEE.r (IEEE.style_transform out)
       = heading
         + (if IEEE.positive (IEEE.netFlow (IEEE.data props))
            then 180 else 0)) /\
    (forall out,
        IEEE.outcome env props headerHeight current
        = IEEE.returned (IEEE.fragment out) ->
        (IEEE.positive (IEEE.netFlow (IEEE.data props)) = true ->
         IEEE.r (IEEE.style_transform out) = heading + 180) /\
        (IEEE.positive (IEEE.netFlow (IEEE.data props)) = false ->
         IEEE.r (IEEE.style_transform out) = heading + 0 /\
         (Prim2SF heading <> S754_zero true ->
          IEEE.r (IEEE.style_transform out) = heading))) /\
    (forall f,
        (0 <? f) = true ->
        let forward := IEEE.setNetFlow (IEEE.js_number f) props in
        let backward := IEEE.setNetFlow (IEEE.js_number (- f)) props in
        (IEEE.outcome env forward headerHeight current
         = IEEE.returned IEEE.null <->
         IEEE.outcome env backward headerHeight current
         = IEEE.returned IEEE.null) /\
        (forall out1,
            IEEE.outcome env forward headerHeight current
            = IEEE.returned (IEEE.fragment out1) ->
            exists out2,
              IEEE.outcome env backward headerHeight current
              = IEEE.returned (IEEE.fragment out2) /\
              IEEE.r (IEEE.style_transform out1) = heading + 180 /\
              IEEE.r (IEEE.style_transform out2) = heading + 0 /\
              IEEE.r (IEEE.style_transform out1)
              = IEEE.r (IEEE.style_transform out2) + 180)).
Proof.
  intros env props headerHeight current pos Hpos Hcurrent heading t.
  split; [| split].
  - intros G1 G2 G3 G4 G5 G6.
    destruct (outcome_drawn env props headerHeight current pos
                Hpos Hcurrent G1 G2 G3 G4 G5 G6) as (out & Hout & Ht & _).
    exists out. split; [exact Hout |]. rewrite Ht. reflexivity.
  - intros out Hout.
    destruct (outcome_fragment_inv _ _ _ _ _ Hout)
      as (pos' & Hpos' & _ & Ht & _).
    rewrite Ht. cbn [IEEE.r IEEE.transform]. fold heading. split.
    + intros ->. reflexivity.
    + intros ->. split; [reflexivity |]. intro Hzero.
      apply add_zero_r. exact Hzero.
  - intros f Hf forward backward.
    pose proof Hf as Hfwd.
    pose proof (positive_opp f Hf) as Hbwd.
    assert (Htogether : forall out1,
      IEEE.outcome env forward headerHeight current
      = IEEE.returned (IEEE.fragment out1) ->
      exists out2,
        IEEE.outcome env backward headerHeight current
        = IEEE.returned (IEEE.fragment out2) /\
        IEEE.r (IEEE.style_transform out1) = heading + 180 /\
        IEEE.r (IEEE.style_transform out2) = heading + 0 /\
        IEEE.r (IEEE.style_transform out1)
        = IEEE.r (IEEE.style_transform out2) + 180).
    { intros out1 Hout1.
      destruct (outcome_reversed_flow env props headerHeight current f pos
                  Hpos Hcurrent out1 Hout1) as (out2 & Hout2 & Ht2).
      destruct (outcome_fragment_inv _ _ _ _ _ Hout1)
        as (pos1 & Hpos1 & _ & Ht1 & _).
      exists out2. split; [exact Hout2 |].
      rewrite Ht1, Ht2. unfold forward, backward.
      cbn [IEEE.r IEEE.transform IEEE.setNetFlow IEEE.data IEEE.netFlow
             IEEE.rotation IEEE.positive IEEE.ToNumber].
      change (IEEE.positive (IEEE.js_number f)) with (0 <? f).
      change (IEEE.positive (IEEE.js_number (- f))) with (0 <? - f).
      rewrite Hfwd, Hbwd. fold heading.
      repeat split. symmetry. apply add_zero_then_180. }
    split; [| exact Htogether].
    assert (Hsame :
      IEEE.outcome env backward headerHeight current
      = match IEEE.outcome env forward headerHeight current with
        | IEEE.returned IEEE.null => IEEE.returned IEEE.null
        | _ => IEEE.outcome env backward headerHeight current
        end /\
      (IEEE.outcome env backward headerHeight current
       = IEEE.returned IEEE.null ->
       IEEE.outcome env forward headerHeight current
       = IEEE.returned IEEE.null)).
    { rewrite (outcome_with_position env forward headerHeight current pos
                 Hpos Hcurrent).
      rewrite (outcome_with_position env backward headerHeight current pos
                 Hpos Hcurrent).
      cbv zeta.
      assert (Habs : IEEE.absFlow (IEEE.data backward)
                     = IEEE.absFlow (IEEE.data forward)).
      { unfold IEEE.absFlow. cbn. apply abs_opp. }
      rewrite Habs.
      change (IEEE.k (IEEE.transform backward pos))
        with (IEEE.k (IEEE.transform forward pos)).
      unfold IEEE.leftOfViewport, IEEE.aboveViewport, IEEE.rightOfViewport,
        IEEE.belowViewport.
      cbn [IEEE.x IEEE.y IEEE.k IEEE.transform IEEE.setNetFlow IEEE.map
             IEEE.viewportWidth IEEE.viewportHeight forward backward].
      repeat match goal with
      | |- context [if ?b then _ else _] => destruct b
      end; split; try reflexivity; intro; try reflexivity; discriminate. }
    destruct Hsame as [Hfb Hbf]. split; [| exact Hbf].
    intro Hnull. rewrite Hfb, Hnull. reflexivity.
Qed.

(** A call throws exactly when the previous render stopped at the early
    return and the record now has a position. *)
Lemma outcome_thrown_iff env props headerHeight current :
  (exists message,
      IEEE.outcome env props headerHeight current = IEEE.thrown message) <->
  current = Some IEEE.stopped /\ IEEE.lonlat (IEEE.data props) <> None.
Proof.
  split.
  - intros [message H].
    destruct (IEEE.lonlat (IEEE.data props)) as [pos |] eqn:Hpos.
    + split; [| discriminate].
      destruct current as [[| deps value] |]; [reflexivity | |];
        exfalso;
        rewrite (outcome_with_position env props headerHeight _ pos Hpos)
          in H by discriminate; discriminate.
    + rewrite (outcome_without_position env props headerHeight current Hpos)
        in H. discriminate.
  - intros [-> Hpos].
    destruct (IEEE.lonlat (IEEE.data props)) as [pos |] eqn:E;
      [| contradiction].
    eexists. unfold IEEE.outcome, IEEE.ExchangeArrow. rewrite E.
    reflexivity.
Qed.

(** Unless the previous render went past the early return and the record
    has no position any more, a render ends as the call does. *)
Lemma render_as_the_call env props headerHeight current :
  (forall deps value, current = Some (IEEE.completed deps value) ->
                      IEEE.lonlat (IEEE.data props) <> None) ->
  fst (IEEE.render env props headerHeight current)
  = IEEE.outcome env props headerHeight current.
Proof.
  intro H. unfold IEEE.render, IEEE.outcome.
  destruct current as [[| deps value] |]; try reflexivity.
  destruct (IEEE.lonlat (IEEE.data props)) eqn:Hpos; [reflexivity |].
  destruct (H deps value eq_refl). reflexivity.
Qed.

(** C8.  The component is not total: an arrow mounted without a position
    returns [null] at line 37 having reached [useSetAtom] only, and its
    next render, with a position, throws at the call of [useEffect], a
    hook the previous render has not reached.  This is the only way a call
    throws: a call throws exactly when the previous render stopped at the
    early return and the record now has a position.  A render, that is the
    call followed by React's count of the hooks it has reached, throws in
    one more case, when the previous render went past the early return and
    the record has no position any more. *)
Theorem position_after_early_return_throws :
  forall env before after headerHeight headerHeight' pos,
    IEEE.lonlat (IEEE.data before) = None ->
    IEEE.lonlat (IEEE.data after) = Some pos ->
    IEEE.ExchangeArrow env before headerHeight None
    = (IEEE.returned IEEE.null, Some IEEE.stopped) /\
    IEEE.outcome env after headerHeight'
      (snd (IEEE.ExchangeArrow env before headerHeight None))
    = IEEE.thrown "Rendered more hooks than during the previous render." /\
    (forall props current,
        (exists message,
            IEEE.outcome env props headerHeight current
            = IEEE.thrown message) <->
        current = Some IEEE.stopped /\
        IEEE.lonlat (IEEE.data props) <> None) /\
    (forall props current,
        (exists message,
            fst (IEEE.render env props headerHeight current)
            = IEEE.thrown message) <->
        (current = Some IEEE.stopped /\
         IEEE.lonlat (IEEE.data props) <> None) \/
        ((exists deps value, current = Some (IEEE.completed deps value)) /\
         IEEE.lonlat (IEEE.data props) = None)).
Proof.
  intros env before after headerHeight headerHeight' pos Hbefore Hafter.
  assert (Hfirst : IEEE.ExchangeArrow env before headerHeight None
                   = (IEEE.returned IEEE.null, Some IEEE.stopped)).
  { unfold IEEE.ExchangeArrow. rewrite Hbefore. reflexivity. }
  split; [exact Hfirst |]. split; [| split].
  - rewrite Hfirst. unfold IEEE.outcome, IEEE.ExchangeArrow.
    rewrite Hafter. reflexivity.
  - intros props current. apply outcome_thrown_iff.
  - intros props current.
    destruct current as [[| deps value] |].
    + rewrite render_as_the_call by discriminate.
      rewrite outcome_thrown_iff. split.
      * intro H. left. exact H.
      * intros [H | [(deps & value & H) _]]; [exact H | discriminate].
    + destruct (IEEE.lonlat (IEEE.data props)) as [pos' |] eqn:Hpos.
      * rewrite render_as_the_call by (rewrite Hpos; discriminate).
        rewrite outcome_thrown_iff, Hpos. split.
        -- intros [H _]. discriminate.
        -- intros [[H _] | [_ H]]; discriminate.
      * unfold IEEE.render. rewrite Hpos. split.
        -- intros _. right. split; [| reflexivity].
           exists deps, value. reflexivity.
        -- intros _. eexists. reflexivity.
    + rewrite render_as_the_call by discriminate.
      rewrite outcome_thrown_iff. split.
      * intros [H _]. discriminate.
      * intros [[H _] | [(deps & value & H) _]]; discriminate.
Qed.

End Doubles.

Section DoublesInstances.

#[local] Set Warnings "-inexact-float".
Local Open Scope float_scope.

(** The reference scenario on doubles: drawn with scale 0.39 and rotation
    180. *)
Example scenario_on_doubles :
  IEEE.outcome IEEE.sampleImports
    (IEEE.scenarioProps (Some (10, 50)) (IEEE.js_number 500) 0) 0 None
  = IEEE.returned
      (IEEE.fragment
         {| IEEE.id := "DE->FR";
            IEEE.style_transform :=
              {| IEEE.x := 500; IEEE.y := 400; IEEE.k := 0.39;
                 IEEE.r := 180 |};
            IEEE.imageSource := "/images/arrows/arrow-80-animated-1";
            IEEE.tooltipClassName :=
              "max-h-[256px] max-w-[512px] hidden md:flex top-[-76px]" |}).
Proof. reflexivity. Qed.

(** At zoom 3 the scale is the double 0.19000000000000003. *)
Example scale_at_zoom_3 :
  IEEE.k (IEEE.transform
            (IEEE.sceneProps
               (IEEE.scenarioData (Some (10, 50)) (IEEE.js_number 500) 0
                  "DE->FR")
               3 500 400 1000 800 false) (10, 50))
  = 0.19000000000000003.
Proof. reflexivity. Qed.

Lemma rotation_of_drawn_arrows_witness :
  let props := IEEE.scenarioProps (Some (10, 50)) (IEEE.js_number 500) 0 in
  exists out,
    IEEE.outcome IEEE.sampleImports props 0 None
    = IEEE.returned (IEEE.fragment out) /\
    IEEE.r (IEEE.style_transform out) = 0 + 180 /\
    IEEE.r (IEEE.style_transform out) = 180.
Proof.
  cbv zeta.
  set (props := IEEE.scenarioProps (Some (10, 50)) (IEEE.js_number 500) 0).
  assert (Hcurrent : @None IEEE.Fiber <> Some IEEE.stopped) by discriminate.
  destruct (proj1 (rotation_of_drawn_arrows IEEE.sampleImports props 0 None
                     (10, 50) eq_refl Hcurrent)
              eq_refl eq_refl eq_refl eq_refl eq_refl eq_refl)
    as (out & Hout & Hr).
  exists out. split; [exact Hout |]. split; exact Hr.
Defined.

(** C4, as stated, fails on doubles: with a heading of 90.1 the two
    rotations are the doubles 270.1 and 90.1, which differ by
    180.00000000000003. *)
Lemma rotation_difference_counterexample :
  exists out1 out2,
    IEEE.outcome IEEE.sampleImports
      (IEEE.scenarioProps (Some (10, 50)) (IEEE.js_number 500) 90.1) 0 None
    = IEEE.returned (IEEE.fragment out1) /\
    IEEE.outcome IEEE.sampleImports
      (IEEE.scenarioProps (Some (10, 50)) (IEEE.js_number (- 500)) 90.1)
      0 None
    = IEEE.returned (IEEE.fragment out2) /\
    IEEE.r (IEEE.style_transform out1) - IEEE.r (IEEE.style_transform out2)
    = 180.00000000000003 /\
    (IEEE.r (IEEE.style_transform out1) - IEEE.r (IEEE.style_transform out2)
     =? 180) = false.
Proof.
  do 2 eexists. split; [reflexivity |]. split; [reflexivity |].
  split; reflexivity.
Qed.

Lemma culled_iff_box_outside_viewport_witness :
  let props :=
    IEEE.sceneProps
      (IEEE.scenarioData (Some (10, 50)) (IEEE.js_number 500) 0 "DE->FR")
      4 (- 29) 400 1000 800 false in
  let t := IEEE.transform props (10, 50) in
  (IEEE.absFlow (IEEE.data props) <? 1) = false /\
  (IEEE.k t <? 0.1) = false /\
  IEEE.boxIsRectangle t /\
  (0 <=? IEEE.viewportWidth props) = true /\
  (0 <=? IEEE.viewportHeight props) = true /\
  100 * IEEE.k t = 28.999999999999996 /\
  exists element,
    IEEE.outcome IEEE.sampleImports props 0 None = IEEE.returned element /\
    element = IEEE.null /\
    ~ IEEE.boxMeetsViewport t (IEEE.viewportWidth props)
        (IEEE.viewportHeight props).
Proof.
  cbv zeta.
  set (props :=
         IEEE.sceneProps
           (IEEE.scenarioData (Some (10, 50)) (IEEE.js_number 500) 0
              "DE->FR")
           4 (- 29) 400 1000 800 false).
  assert (Hcurrent : @None IEEE.Fiber <> Some IEEE.stopped) by discriminate.
  assert (H1 : (IEEE.absFlow (IEEE.data props) <? 1) = false)
    by reflexivity.
  assert (H2 : (IEEE.k (IEEE.transform props (10, 50)) <? 0.1) = false)
    by reflexivity.
  assert (H3 : IEEE.boxIsRectangle (IEEE.transform props (10, 50)))
    by (split; reflexivity).
  assert (H4 : (0 <=? IEEE.viewportWidth props) = true) by reflexivity.
  assert (H5 : (0 <=? IEEE.viewportHeight props) = true) by reflexivity.
  split; [exact H1 |]. split; [exact H2 |]. split; [exact H3 |].
  split; [exact H4 |]. split; [exact H5 |]. split; [reflexivity |].
  destruct (culled_iff_box_outside_viewport IEEE.sampleImports props 0 None
              (10, 50) eq_refl Hcurrent H1 H2)
    as (element & Hout & Htests & Hbox).
  assert (Hnull : element = IEEE.null).
  { apply Htests. left. reflexivity. }
  exists element. split; [exact Hout |]. split; [exact Hnull |].
  apply (Hbox H3 H4 H5). exact Hnull.
Defined.

(** The other order: an arrow drawn with a position, then rendered without
    one, returns [null] from the call and is rejected by React. *)
Example position_lost_after_a_drawn_render :
  let before := IEEE.scenarioProps (Some (10, 50)) (IEEE.js_number 500) 0 in
  let after := IEEE.scenarioProps None (IEEE.js_number 500) 0 in
  let cells := snd (IEEE.render IEEE.sampleImports before 0 None) in
  IEEE.outcome IEEE.sampleImports after 0 cells = IEEE.returned IEEE.null /\
  exists message,
    fst (IEEE.render IEEE.sampleImports after 0 cells) = IEEE.thrown message.
Proof. cbv zeta. split; [reflexivity |]. eexists. reflexivity. Qed.

Lemma position_after_early_return_throws_witness :
  let before := IEEE.scenarioProps None (IEEE.js_number 500) 0 in
  let after := IEEE.scenarioProps (Some (10, 50)) (IEEE.js_number 500) 0 in
  IEEE.outcome IEEE.sampleImports before 0 None
  = IEEE.returned IEEE.null /\
  IEEE.outcome IEEE.sampleImports after 0
    (snd (IEEE.ExchangeArrow IEEE.sampleImports before 0 None))
  = IEEE.thrown "Rendered more hooks than during the previous render.".
Proof.
  cbv zeta. split; [reflexivity |].
  exact (proj1 (proj2
           (position_after_early_return_throws IEEE.sampleImports
              (IEEE.scenarioProps None (IEEE.js_number 500) 0)
              (IEEE.scenarioProps (Some (10, 50)) (IEEE.js_number 500) 0)
              0 0 (10, 50) eq_refl eq_refl))).
Defined.

End DoublesInstances.
